(** * SQLApi: the task manager's data access layer

    A shallow embedding of [api/models.py] (the five relations, their keys
    and their cascade rules) and of [api/api.py] (class [TaskManagerAPI]),
    followed by the properties of the specification checked against it.

    The SQLAlchemy session and the relational engine behind it are outside
    the repository.  They are represented as follows.
    - A [Store] holds the five tables, each a list of rows in insertion
      order; [.first()] returns the first row that satisfies the filter.
    - An integer primary key receives, on INSERT, one more than the largest
      key of its table ([next_id]): a key no stored row has, and the key
      PostgreSQL's sequence hands out as long as the row with the largest
      key has not been deleted.
    - A [Session] holds the durable store ([committed]), the store as the
      open transaction sees it ([current]), a schedule of the engine's
      answers ([faults]) and a log of events.
    - Every query, every commit and every read of an attribute that a
      commit expired is one round trip to the engine, which
      either answers or raises [SQLAlchemyError]; whatever makes the engine
      raise (a violated constraint, a value the column type refuses, a lost
      connection) is an entry of the schedule, so the methods are analysed
      under every behaviour of the engine.  [session.add], attribute
      assignment, [session.delete] and [session.rollback] make no round
      trip.
    - Deletion follows the [cascade="all, delete-orphan"] relationships and
      the [ondelete="CASCADE"] foreign keys of models.py.
    - The methods are written statement by statement in a state-and-
      exception monad [M] over the session; [try_except] is
      [try ... except SQLAlchemyError].
    - What the engine of database.py refuses because of the column types
      and foreign keys of models.py is given by the schedules
      [engine_create_user], [engine_add_user_identifier] and
      [engine_update_task_progress].
    - Strings are sequences of UTF-8 bytes.  A string with a NUL character
      is refused by the driver with a [ValueError] before any statement is
      sent; the model does not follow that exception, and the theorems on
      the configured engine take strings that are [NUL_free]. *)

From Stdlib Require Import ZArith List Ascii String Bool Lia.
From Stdlib Require Import DecimalString.
Import ListNotations.

Local Open Scope string_scope.
Local Open Scope Z_scope.

(* ================================================================== *)
(** ** Python values used by the API *)

(** [datetime.date(year, month, day)]. *)
Record date := mkDate { year : Z; month : Z; day : Z }.

(** [str(n)] for a Python [int], as the f-strings of the error messages
    format ids. *)
Definition str_int (n : Z) : string := NilZero.string_of_int (Z.to_int n).

(** Truth value of an optional string argument in [if name:]: [None] and the
    empty string are falsy, every other string is truthy. *)
Definition truthy_str (o : option string) : bool :=
  match o with
  | None => false
  | Some s => negb (String.eqb s "")
  end.

(** Truth value of an optional [date] argument: a [date] object is always
    truthy, only [None] is falsy. *)
Definition truthy_date (o : option date) : bool :=
  match o with
  | None => false
  | Some _ => true
  end.

(** Values stored in the dictionary built by [get_task_details]. *)
Inductive value :=
| VInt (n : Z)
| VStr (s : string)
| VBool (b : bool)
| VDate (d : date).

(** A Python [dict] with string keys, in insertion order. *)
Definition dict := list (string * value).

Fixpoint dict_get (k : string) (d : dict) : option value :=
  match d with
  | [] => None
  | (k', v) :: d' => if String.eqb k' k then Some v else dict_get k d'
  end.

(** [dict[k] = v]. *)
Fixpoint dict_set (k : string) (v : value) (d : dict) : dict :=
  match d with
  | [] => [(k, v)]
  | (k', v') :: d' =>
      if String.eqb k' k then (k, v) :: d' else (k', v') :: dict_set k v d'
  end.

Definition dict_keys (d : dict) : list string := map fst d.

(* ================================================================== *)
(** ** models.py: the five relations *)

Module User.
(** [class User]: table [users]. *)
Record t := mk { id : Z; name : string }.
End User.

Module UserID.
(** [class UserID]: table [user_ids]. *)
Record t := mk { id : Z; user_id : Z; identifier : string; identifier_type : string }.
End UserID.

Module Task.
(** [class Task]: table [tasks]; [progress] has [default=0]. *)
Record t := mk { id : Z; user_id : Z; name : string; progress : Z; is_regular : bool }.

Definition set_name (n : string) (x : t) : t :=
  mk (id x) (user_id x) n (progress x) (is_regular x).
Definition set_progress (p : Z) (x : t) : t :=
  mk (id x) (user_id x) (name x) p (is_regular x).
End Task.

Module RegularTask.
(** [class RegularTask]: table [regular_tasks]. *)
Record t := mk { id : Z; task_id : Z; weekdays : string }.

Definition set_weekdays (w : string) (x : t) : t := mk (id x) (task_id x) w.
End RegularTask.

Module IrregularTask.
(** [class IrregularTask]: table [irregular_tasks]. *)
Record t := mk { id : Z; task_id : Z; optimal_deadline : date; hard_deadline : date }.

Definition set_optimal_deadline (d : date) (x : t) : t :=
  mk (id x) (task_id x) d (hard_deadline x).
Definition set_hard_deadline (d : date) (x : t) : t :=
  mk (id x) (task_id x) (optimal_deadline x) d.
End IrregularTask.

(** The database: one list of rows per [__tablename__]. *)
Record Store := mkStore {
  users : list User.t;
  user_ids : list UserID.t;
  tasks : list Task.t;
  regular_tasks : list RegularTask.t;
  irregular_tasks : list IrregularTask.t
}.

Definition empty_store : Store := mkStore [] [] [] [] [].

Definition set_users (l : list User.t) (d : Store) : Store :=
  mkStore l (user_ids d) (tasks d) (regular_tasks d) (irregular_tasks d).
Definition set_user_ids (l : list UserID.t) (d : Store) : Store :=
  mkStore (users d) l (tasks d) (regular_tasks d) (irregular_tasks d).
Definition set_tasks (l : list Task.t) (d : Store) : Store :=
  mkStore (users d) (user_ids d) l (regular_tasks d) (irregular_tasks d).
Definition set_regular_tasks (l : list RegularTask.t) (d : Store) : Store :=
  mkStore (users d) (user_ids d) (tasks d) l (irregular_tasks d).
Definition set_irregular_tasks (l : list IrregularTask.t) (d : Store) : Store :=
  mkStore (users d) (user_ids d) (tasks d) (regular_tasks d) l.

(** A change to the rows of one table. *)
Definition on_users (f : list User.t -> list User.t) (d : Store) : Store :=
  set_users (f (users d)) d.
Definition on_tasks (f : list Task.t -> list Task.t) (d : Store) : Store :=
  set_tasks (f (tasks d)) d.
Definition on_regular_tasks (f : list RegularTask.t -> list RegularTask.t) (d : Store) : Store :=
  set_regular_tasks (f (regular_tasks d)) d.
Definition on_irregular_tasks (f : list IrregularTask.t -> list IrregularTask.t)
    (d : Store) : Store :=
  set_irregular_tasks (f (irregular_tasks d)) d.

(** The value an integer primary key receives on INSERT: one more than the
    largest key of the table (1 in an empty table). *)
Definition next_id (ids : list Z) : Z := 1 + fold_right Z.max 0 ids.

(** *** Statements the unit of work sends at flush time *)

(** INSERT of a [User(name=name)]. *)
Definition insert_user (name : string) (d : Store) : User.t * Store :=
  let u := User.mk (next_id (map User.id (users d))) name in
  (u, set_users (users d ++ [u])%list d).

(** INSERT of a [UserID(user_id, identifier, identifier_type)]. *)
Definition insert_user_id (user_id : Z) (identifier identifier_type : string)
    (d : Store) : UserID.t * Store :=
  let r := UserID.mk (next_id (map UserID.id (user_ids d))) user_id identifier identifier_type in
  (r, set_user_ids (user_ids d ++ [r])%list d).

(** INSERT of a [Task(user_id, name, is_regular)]; [progress] takes its
    column default 0. *)
Definition insert_task (user_id : Z) (name : string) (is_regular : bool)
    (d : Store) : Task.t * Store :=
  let t := Task.mk (next_id (map Task.id (tasks d))) user_id name 0 is_regular in
  (t, set_tasks (tasks d ++ [t])%list d).

(** INSERT of a [RegularTask(task_id, weekdays)]. *)
Definition insert_regular_task (task_id : Z) (weekdays : string)
    (d : Store) : RegularTask.t * Store :=
  let r := RegularTask.mk (next_id (map RegularTask.id (regular_tasks d))) task_id weekdays in
  (r, set_regular_tasks (regular_tasks d ++ [r])%list d).

(** INSERT of an [IrregularTask(task_id, optimal_deadline, hard_deadline)]. *)
Definition insert_irregular_task (task_id : Z) (optimal_deadline hard_deadline : date)
    (d : Store) : IrregularTask.t * Store :=
  let r := IrregularTask.mk (next_id (map IrregularTask.id (irregular_tasks d)))
             task_id optimal_deadline hard_deadline in
  (r, set_irregular_tasks (irregular_tasks d ++ [r])%list d).

(** UPDATE of one mapped object: the row is addressed by its primary key. *)
Definition update_where {A} (key : A -> Z) (k : Z) (f : A -> A) (rows : list A) : list A :=
  map (fun r => if key r =? k then f r else r) rows.

(** Ids of the tasks owned by user [uid]. *)
Definition task_ids_of_user (uid : Z) (d : Store) : list Z :=
  map Task.id (filter (fun t => Task.user_id t =? uid) (tasks d)).

Definition mem_id (k : Z) (ids : list Z) : bool := existsb (Z.eqb k) ids.

(** DELETE of a task.  [Task.regular_task] and [Task.irregular_task] are
    declared with [cascade="all, delete-orphan"] and the foreign keys with
    [ondelete="CASCADE"]: the extension rows referencing the task go with
    it. *)
Definition delete_task_rows (tid : Z) (d : Store) : Store :=
  mkStore (users d) (user_ids d)
    (filter (fun t => negb (Task.id t =? tid)) (tasks d))
    (filter (fun r => negb (RegularTask.task_id r =? tid)) (regular_tasks d))
    (filter (fun r => negb (IrregularTask.task_id r =? tid)) (irregular_tasks d)).

(** DELETE of a user.  [User.identifiers] and [User.tasks] cascade, and each
    deleted task cascades to its extension rows. *)
Definition delete_user_rows (uid : Z) (d : Store) : Store :=
  let gone := task_ids_of_user uid d in
  mkStore
    (filter (fun u => negb (User.id u =? uid)) (users d))
    (filter (fun r => negb (UserID.user_id r =? uid)) (user_ids d))
    (filter (fun t => negb (Task.user_id t =? uid)) (tasks d))
    (filter (fun r => negb (mem_id (RegularTask.task_id r) gone)) (regular_tasks d))
    (filter (fun r => negb (mem_id (IrregularTask.task_id r) gone)) (irregular_tasks d)).

(* ================================================================== *)
(** ** The session *)

(** What the session did, newest first. *)
Inductive event :=
| EvQuery                    (* a SELECT was answered *)
| EvCommit                   (* flush and COMMIT succeeded *)
| EvRollback                 (* [session.rollback()] *)
| EvFault (cause : string).  (* the engine raised [SQLAlchemyError] *)

(** - [committed]: the durable contents of the database;
    - [current]: the contents as seen inside the open transaction (pending
      and dirty objects included, as autoflush shows them to queries);
    - [faults]: how the engine answers the next round trips, [None] for a
      normal answer and [Some cause] for an [SQLAlchemyError] whose [str()]
      is [cause] (constraint violation, lost connection, ...); an exhausted
      schedule means no further fault;
    - [log]: the events so far. *)
Record Session := mkSession {
  committed : Store;
  current : Store;
  faults : list (option string);
  log : list event
}.

Definition new_session (d : Store) (fs : list (option string)) : Session :=
  mkSession d d fs [].

(** The exceptions that occur in [api.py]. *)
Inductive exn :=
| SQLAlchemyError (cause : string)
| Exception (msg : string)
| AttributeError (msg : string).

Inductive outcome (A : Type) :=
| Return (a : A)
| Raise (e : exn).
Arguments Return {A} a.
Arguments Raise {A} e.

(** Computations over the session that return or raise. *)
Definition M (A : Type) : Type := Session -> outcome A * Session.

Definition ret {A} (a : A) : M A := fun s => (Return a, s).

Definition raise {A} (e : exn) : M A := fun s => (Raise e, s).

Definition bind {A B} (m : M A) (f : A -> M B) : M B :=
  fun s =>
    match m s with
    | (Return a, s') => f a s'
    | (Raise e, s') => (Raise e, s')
    end.

Notation "x <- m ;; k" := (bind m (fun x => k))
  (at level 61, m at next level, right associativity).
Notation "m ;; k" := (bind m (fun _ => k))
  (at level 61, right associativity).

(** [try: body except SQLAlchemyError as e: handler(str(e))]: every other
    exception passes through. *)
Definition try_except {A} (body : M A) (handler : string -> M A) : M A :=
  fun s =>
    match body s with
    | (Raise (SQLAlchemyError cause), s') => handler cause s'
    | r => r
    end.

(** One round trip to the engine: it answers, or raises as scheduled. *)
Definition engine_call (ev : event) : M unit :=
  fun s =>
    match faults s with
    | Some cause :: fs =>
        (Raise (SQLAlchemyError cause),
         mkSession (committed s) (current s) fs (EvFault cause :: log s))
    | None :: fs =>
        (Return tt, mkSession (committed s) (current s) fs (ev :: log s))
    | [] =>
        (Return tt, mkSession (committed s) (current s) [] (ev :: log s))
    end.

(** [session.query(T).filter_by(...).first()]: the first row of the table
    that satisfies the filter, [None] when there is none. *)
Definition query_first {A} (table : Store -> list A) (p : A -> bool) : M (option A) :=
  engine_call EvQuery ;;
  fun s => (Return (find p (table (current s))), s).

(** [session.query(T).filter_by(...).all()]. *)
Definition query_all {A} (table : Store -> list A) (p : A -> bool) : M (list A) :=
  engine_call EvQuery ;;
  fun s => (Return (filter p (table (current s))), s).

(** [session.add(obj)], [obj.attr = v] and [session.delete(obj)] change the
    unit of work only; [f] is the statement they stand for. *)
Definition stage {A} (f : Store -> A * Store) : M A :=
  fun s =>
    let (a, d) := f (current s) in
    (Return a, mkSession (committed s) d (faults s) (log s)).

Definition stage_ (f : Store -> Store) : M unit :=
  stage (fun d => (tt, f d)).

(** [session.commit()]: flush and COMMIT in one round trip; on success the
    transaction's view becomes the durable contents. *)
Definition commit : M unit :=
  engine_call EvCommit ;;
  fun s => (Return tt, mkSession (current s) (current s) (faults s) (log s)).

(** [session.rollback()]: the open transaction is discarded. *)
Definition rollback : M unit :=
  fun s => (Return tt, mkSession (committed s) (committed s) (faults s) (EvRollback :: log s)).

(** *** Relationship accessors of models.py (lazy loads) *)

(** [user_id_obj.user]. *)
Definition UserID_user (r : UserID.t) : M (option User.t) :=
  query_first users (fun u => User.id u =? UserID.user_id r).

(** [task.regular_task] ([uselist=False]). *)
Definition Task_regular_task (t : Task.t) : M (option RegularTask.t) :=
  query_first regular_tasks (fun r => RegularTask.task_id r =? Task.id t).

(** [task.irregular_task] ([uselist=False]). *)
Definition Task_irregular_task (t : Task.t) : M (option IrregularTask.t) :=
  query_first irregular_tasks (fun r => IrregularTask.task_id r =? Task.id t).

(* ================================================================== *)
(** ** api.py: class TaskManagerAPI *)

(** The text each method puts in front of [str(e)] when it re-raises. *)
Definition err_create_user := "Ошибка при создании пользователя: ".
Definition err_add_user_identifier := "Ошибка при добавлении идентификатора пользователя: ".
Definition err_update_user := "Ошибка при обновлении пользователя: ".
Definition err_delete_user := "Ошибка при удалении пользователя: ".
Definition err_create_task := "Ошибка при создании задачи: ".
Definition err_create_regular_task := "Ошибка при создании регулярной задачи: ".
Definition err_create_irregular_task := "Ошибка при создании нерегулярной задачи: ".
Definition err_update_task_progress := "Ошибка при обновлении прогресса задачи: ".
Definition err_update_regular_task := "Ошибка при обновлении регулярной задачи: ".
Definition err_update_irregular_task := "Ошибка при обновлении нерегулярной задачи: ".
Definition err_delete_task := "Ошибка при удалении задачи: ".

(** The messages of the "not found" exceptions. *)
Definition user_not_found (user_id : Z) : string :=
  ("Пользователь с ID " ++ str_int user_id ++ " не найден")%string.
Definition task_not_found (task_id : Z) : string :=
  ("Задача с ID " ++ str_int task_id ++ " не найдена")%string.
Definition regular_task_not_found (task_id : Z) : string :=
  ("Регулярная задача с task_id " ++ str_int task_id ++ " не найдена")%string.
Definition irregular_task_not_found (task_id : Z) : string :=
  ("Нерегулярная задача с task_id " ++ str_int task_id ++ " не найдена")%string.

(** [except SQLAlchemyError as e: self.session.rollback(); raise Exception(f"<ctx>{str(e)}")] *)
Definition rollback_and_raise {A} (ctx : string) (cause : string) : M A :=
  rollback ;; raise (Exception (ctx ++ cause)%string).

(** [task.name = name] on a task that may be [None]. *)
Definition set_task_name (task : option Task.t) (name : string) : M unit :=
  match task with
  | Some t => stage_ (on_tasks (update_where Task.id (Task.id t) (Task.set_name name)))
  | None => raise (AttributeError "'NoneType' object has no attribute 'name'")
  end.

(** [if arg: body(arg)] for an optional string argument. *)
Definition if_str (arg : option string) (body : string -> M unit) : M unit :=
  match arg with
  | Some s => if truthy_str arg then body s else ret tt
  | None => ret tt
  end.

(** [if arg: body(arg)] for an optional date argument. *)
Definition if_date (arg : option date) (body : date -> M unit) : M unit :=
  match arg with
  | Some d => if truthy_date arg then body d else ret tt
  | None => ret tt
  end.

(** [obj.id] read after [session.commit()]: the commit expired the object
    (sessions come from [sessionmaker(bind=engine)], database.py), so the
    attribute is loaded again, with a SELECT. *)
Definition reload_id {A} (id : A -> Z) (obj : A) : M Z :=
  engine_call EvQuery ;;
  ret (id obj).

Definition create_user (name : string) : M Z :=
  try_except
    (user <- stage (insert_user name) ;;
     commit ;;
     reload_id User.id user)
    (rollback_and_raise err_create_user).

Definition add_user_identifier (user_id : Z) (identifier identifier_type : string) : M Z :=
  try_except
    (user_id_obj <- stage (insert_user_id user_id identifier identifier_type) ;;
     commit ;;
     reload_id UserID.id user_id_obj)
    (rollback_and_raise err_add_user_identifier).

(** [filter_by(identifier=identifier, identifier_type=identifier_type)]. *)
Definition same_identifier (identifier identifier_type : string) (r : UserID.t) : bool :=
  String.eqb (UserID.identifier r) identifier
  && String.eqb (UserID.identifier_type r) identifier_type.

Definition get_user_by_identifier (identifier identifier_type : string) : M (option User.t) :=
  user_id_obj <- query_first user_ids (same_identifier identifier identifier_type) ;;
  match user_id_obj with
  | Some r => UserID_user r
  | None => ret None
  end.

Definition get_user (user_id : Z) : M (option User.t) :=
  query_first users (fun u => User.id u =? user_id).

Definition update_user (user_id : Z) (name : string) : M bool :=
  try_except
    (user <- query_first users (fun u => User.id u =? user_id) ;;
     match user with
     | None => raise (Exception (user_not_found user_id))
     | Some u =>
         stage_ (on_users (update_where User.id (User.id u) (fun x => User.mk (User.id x) name))) ;;
         commit ;;
         ret true
     end)
    (rollback_and_raise err_update_user).

Definition delete_user (user_id : Z) : M bool :=
  try_except
    (user <- query_first users (fun u => User.id u =? user_id) ;;
     match user with
     | None => raise (Exception (user_not_found user_id))
     | Some u =>
         stage_ (delete_user_rows (User.id u)) ;;
         commit ;;
         ret true
     end)
    (rollback_and_raise err_delete_user).

Definition create_task (user_id : Z) (name : string) (is_regular : bool) : M Z :=
  try_except
    (task <- stage (insert_task user_id name is_regular) ;;
     commit ;;
     reload_id Task.id task)
    (rollback_and_raise err_create_task).

Definition create_regular_task (user_id : Z) (name weekdays : string) : M Z :=
  try_except
    (task_id <- create_task user_id name true ;;
     stage (insert_regular_task task_id weekdays) ;;
     commit ;;
     ret task_id)
    (rollback_and_raise err_create_regular_task).

Definition create_irregular_task (user_id : Z) (name : string)
    (optimal_deadline hard_deadline : date) : M Z :=
  try_except
    (task_id <- create_task user_id name false ;;
     stage (insert_irregular_task task_id optimal_deadline hard_deadline) ;;
     commit ;;
     ret task_id)
    (rollback_and_raise err_create_irregular_task).

Definition get_task (task_id : Z) : M (option Task.t) :=
  query_first tasks (fun t => Task.id t =? task_id).

Definition get_task_details (task_id : Z) : M (option dict) :=
  task <- get_task task_id ;;
  match task with
  | None => ret None
  | Some t =>
      let result :=
        [("id", VInt (Task.id t));
         ("name", VStr (Task.name t));
         ("progress", VInt (Task.progress t));
         ("is_regular", VBool (Task.is_regular t));
         ("user_id", VInt (Task.user_id t))] in
      if Task.is_regular t then
        regular_task <- Task_regular_task t ;;
        match regular_task with
        | Some r => ret (Some (dict_set "weekdays" (VStr (RegularTask.weekdays r)) result))
        | None => ret (Some result)
        end
      else
        irregular_task <- Task_irregular_task t ;;
        match irregular_task with
        | Some r =>
            ret (Some (dict_set "hard_deadline" (VDate (IrregularTask.hard_deadline r))
                        (dict_set "optimal_deadline" (VDate (IrregularTask.optimal_deadline r))
                           result)))
        | None => ret (Some result)
        end
  end.

Definition get_user_tasks (user_id : Z) : M (list Task.t) :=
  query_all tasks (fun t => Task.user_id t =? user_id).

Definition update_task_progress (task_id : Z) (progress : Z) : M bool :=
  try_except
    (task <- query_first tasks (fun t => Task.id t =? task_id) ;;
     match task with
     | None => raise (Exception (task_not_found task_id))
     | Some t =>
         stage_ (on_tasks (update_where Task.id (Task.id t) (Task.set_progress progress))) ;;
         commit ;;
         ret true
     end)
    (rollback_and_raise err_update_task_progress).

Definition update_regular_task (task_id : Z) (name weekdays : option string) : M bool :=
  try_except
    (regular_task <- query_first regular_tasks (fun r => RegularTask.task_id r =? task_id) ;;
     match regular_task with
     | None => raise (Exception (regular_task_not_found task_id))
     | Some rt =>
         if_str name (fun n =>
           task <- query_first tasks (fun t => Task.id t =? task_id) ;;
           set_task_name task n) ;;
         if_str weekdays (fun w =>
           stage_ (on_regular_tasks
                     (update_where RegularTask.id (RegularTask.id rt)
                        (RegularTask.set_weekdays w)))) ;;
         commit ;;
         ret true
     end)
    (rollback_and_raise err_update_regular_task).

Definition update_irregular_task (task_id : Z) (name : option string)
    (optimal_deadline hard_deadline : option date) : M bool :=
  try_except
    (irregular_task <- query_first irregular_tasks
                         (fun r => IrregularTask.task_id r =? task_id) ;;
     match irregular_task with
     | None => raise (Exception (irregular_task_not_found task_id))
     | Some it =>
         if_str name (fun n =>
           task <- query_first tasks (fun t => Task.id t =? task_id) ;;
           set_task_name task n) ;;
         if_date optimal_deadline (fun d =>
           stage_ (on_irregular_tasks
                     (update_where IrregularTask.id (IrregularTask.id it)
                        (IrregularTask.set_optimal_deadline d)))) ;;
         if_date hard_deadline (fun d =>
           stage_ (on_irregular_tasks
                     (update_where IrregularTask.id (IrregularTask.id it)
                        (IrregularTask.set_hard_deadline d)))) ;;
         commit ;;
         ret true
     end)
    (rollback_and_raise err_update_irregular_task).

Definition delete_task (task_id : Z) : M bool :=
  try_except
    (task <- query_first tasks (fun t => Task.id t =? task_id) ;;
     match task with
     | None => raise (Exception (task_not_found task_id))
     | Some t =>
         stage_ (delete_task_rows (Task.id t)) ;;
         commit ;;
         ret true
     end)
    (rollback_and_raise err_delete_task).

(* ================================================================== *)
(** ** Running the session when the engine answers *)

Definition no_fault (o : option string) : bool :=
  match o with
  | None => true
  | Some _ => false
  end.

(** The engine raises no fault from here on. *)
Definition healthy (s : Session) : Prop := forallb no_fault (faults s) = true.

(** No transaction is open with unflushed changes: the session sees exactly
    the durable contents.  Every method of the API leaves the session so. *)
Definition clean (s : Session) : Prop := current s = committed s.

(** The next round trip is answered (it may be followed by faults). *)
Definition answers (s : Session) : Prop := hd None (faults s) = None.

(** The session after one answered round trip. *)
Definition answered (ev : event) (s : Session) : Session :=
  mkSession (committed s) (current s) (tl (faults s)) (ev :: log s).

(** The session after a successful [commit]. *)
Definition after_commit (s : Session) : Session :=
  mkSession (current s) (current s) (tl (faults s)) (EvCommit :: log s).

(** The session with the open transaction's view replaced. *)
Definition with_current (d : Store) (s : Session) : Session :=
  mkSession (committed s) d (faults s) (log s).

(* ================================================================== *)
(** ** The public mutating operations, as one type *)

(** What a mutating method returns: an id or [True]. *)
Inductive retval :=
| RInt (n : Z)
| RBool (b : bool).

Inductive op :=
| CreateUser (name : string)
| AddUserIdentifier (user_id : Z) (identifier identifier_type : string)
| CreateTask (user_id : Z) (name : string) (is_regular : bool)
| CreateRegularTask (user_id : Z) (name weekdays : string)
| CreateIrregularTask (user_id : Z) (name : string) (optimal_deadline hard_deadline : date)
| UpdateUser (user_id : Z) (name : string)
| UpdateTaskProgress (task_id : Z) (progress : Z)
| UpdateRegularTask (task_id : Z) (name weekdays : option string)
| UpdateIrregularTask (task_id : Z) (name : option string)
    (optimal_deadline hard_deadline : option date)
| DeleteUser (user_id : Z)
| DeleteTask (task_id : Z).

Definition returning {A} (inj : A -> retval) (m : M A) : M retval :=
  fun s =>
    match m s with
    | (Return a, s') => (Return (inj a), s')
    | (Raise e, s') => (Raise e, s')
    end.

(** The method call an [op] stands for. *)
Definition exec (o : op) : M retval :=
  match o with
  | CreateUser name => returning RInt (create_user name)
  | AddUserIdentifier u i ty => returning RInt (add_user_identifier u i ty)
  | CreateTask u name reg => returning RInt (create_task u name reg)
  | CreateRegularTask u name w => returning RInt (create_regular_task u name w)
  | CreateIrregularTask u name od hd => returning RInt (create_irregular_task u name od hd)
  | UpdateUser u name => returning RBool (update_user u name)
  | UpdateTaskProgress t p => returning RBool (update_task_progress t p)
  | UpdateRegularTask t name w => returning RBool (update_regular_task t name w)
  | UpdateIrregularTask t name od hd => returning RBool (update_irregular_task t name od hd)
  | DeleteUser u => returning RBool (delete_user u)
  | DeleteTask t => returning RBool (delete_task t)
  end.


(** The base task insert of a composed create, [None] for the other
    operations. *)
Definition base_insert (o : op) : option (Store -> Store) :=
  match o with
  | CreateRegularTask u name _ => Some (fun d => snd (insert_task u name true d))
  | CreateIrregularTask u name _ _ => Some (fun d => snd (insert_task u name false d))
  | _ => None
  end.

(** The first INSERT of a create, [None] for the other operations: what the
    operation has committed once its first commit is answered. *)
Definition first_insert (o : op) : option (Store -> Store) :=
  match o with
  | CreateUser name => Some (fun d => snd (insert_user name d))
  | AddUserIdentifier u i ty => Some (fun d => snd (insert_user_id u i ty d))
  | CreateTask u name reg => Some (fun d => snd (insert_task u name reg d))
  | CreateRegularTask u name _ => Some (fun d => snd (insert_task u name true d))
  | CreateIrregularTask u name _ _ => Some (fun d => snd (insert_task u name false d))
  | _ => None
  end.

Definition is_fault (e : event) : bool :=
  match e with
  | EvFault _ => true
  | _ => false
  end.

Definition is_commit (e : event) : bool :=
  match e with
  | EvCommit => true
  | _ => false
  end.

(** Number of successful commits in a log. *)
Definition commits (l : list event) : nat := List.length (filter is_commit l).

(* ================================================================== *)
(** ** Constraints declared by models.py *)

Fixpoint distinct (ids : list Z) : bool :=
  match ids with
  | [] => true
  | i :: ids' => negb (mem_id i ids') && distinct ids'
  end.

(** [primary_key=True] on every [id] column. *)
Definition pk_ok (d : Store) : bool :=
  distinct (map User.id (users d))
  && distinct (map UserID.id (user_ids d))
  && distinct (map Task.id (tasks d))
  && distinct (map RegularTask.id (regular_tasks d))
  && distinct (map IrregularTask.id (irregular_tasks d)).

(** [ForeignKey("tasks.id")] on [regular_tasks.task_id] and
    [irregular_tasks.task_id]: an extension row references a stored task. *)
Definition fk_ext_ok (d : Store) : bool :=
  forallb (fun r => mem_id (RegularTask.task_id r) (map Task.id (tasks d))) (regular_tasks d)
  && forallb (fun r => mem_id (IrregularTask.task_id r) (map Task.id (tasks d)))
       (irregular_tasks d).

(* ================================================================== *)
(** ** Column types of models.py on the engine of database.py *)

(** [Column(Integer)]: PostgreSQL's [integer] holds the signed 32-bit
    range. *)
Definition fits_Integer (n : Z) : bool :=
  (-2147483648 <=? n) && (n <=? 2147483647).

(** A byte that continues a UTF-8 character ([10xxxxxx]). *)
Definition is_continuation (c : ascii) : bool :=
  (128 <=? Z.of_nat (nat_of_ascii c)) && (Z.of_nat (nat_of_ascii c) <? 192).

(** The number of characters of a UTF-8 string: Python's [len]. *)
Fixpoint characters (s : string) : nat :=
  match s with
  | EmptyString => O
  | String c s' => if is_continuation c then characters s' else S (characters s')
  end.

(** [Column(String(n))] holds at most [n] characters. *)
Definition fits_String (n : nat) (s : string) : bool := Nat.leb (characters s) n.

(** What is left of a string after its first [n] characters. *)
Fixpoint excess (n : nat) (s : string) : string :=
  match s with
  | EmptyString => EmptyString
  | String c s' =>
      if is_continuation c then excess n s'
      else
        match n with
        | O => s
        | S n' => excess n' s'
        end
  end.

Fixpoint all_spaces (s : string) : bool :=
  match s with
  | EmptyString => true
  | String c s' => Ascii.eqb c " " && all_spaces s'
  end.

(** [character varying(n)] refuses a longer value, unless what exceeds [n]
    characters is spaces only. *)
Definition String_refused (n : nat) (s : string) : bool := negb (all_spaces (excess n s)).

(** No character of the string is NUL. *)
Fixpoint NUL_free (s : string) : bool :=
  match s with
  | EmptyString => true
  | String c s' => negb (Ascii.eqb c zero) && NUL_free s'
  end.

(** The engine's answer to a flush: [refusal] is the text of its error. *)
Definition flush_answer (refused : bool) (refusal : string) : option string :=
  if refused then Some refusal else None.


(** The same for [add_user_identifier user_id identifier identifier_type] on
    a store [d]: [user_ids.user_id] is [ForeignKey("users.id")],
    [identifier] is [String(100)] and [identifier_type] is [String(50)]. *)
Definition engine_add_user_identifier (refusal : string) (d : Store)
    (user_id : Z) (identifier identifier_type : string) : list (option string) :=
  [flush_answer
     (negb (mem_id user_id (map User.id (users d)))
      || String_refused 100 identifier || String_refused 50 identifier_type)
     refusal;
   None].

(** The same for [update_task_progress task_id progress]: the lookup is
    answered, the UPDATE of [tasks.progress = Column(Integer)] is flushed by
    the commit. *)
Definition engine_update_task_progress (refusal : string) (progress : Z)
    : list (option string) :=
  [None; flush_answer (negb (fits_Integer progress)) refusal].


(* ================================================================== *)
(** ** Sessions built through the API, used as concrete inputs *)

(** The session a sequence of calls leaves behind. *)
Definition session_after {A} (m : M A) (s : Session) : Session := snd (m s).

(** main.py's scenario up to the regular task: a user, a telegram
    identifier and the regular task "Exercise". *)
Definition demo_session : Session :=
  session_after
    (u <- create_user "Ivan" ;;
     add_user_identifier u "123456789" "telegram" ;;
     create_regular_task u "Exercise" "1,2,3,4,5")
    (new_session empty_store []).

(** The same with an irregular task "Report" added. *)
Definition demo_session2 : Session :=
  session_after
    (create_irregular_task 1 "Report" (mkDate 2025 5 10) (mkDate 2025 5 15))
    demo_session.

(** Two users, the first of which registered ("123456789", "telegram"). *)
Definition two_users_session : Session :=
  session_after
    (a <- create_user "Anna" ;;
     create_user "Boris" ;;
     add_user_identifier a "123456789" "telegram")
    (new_session empty_store []).

(** Two users who both registered ("123456789", "telegram"), each with a
    task. *)
Definition shared_identifier_session : Session :=
  session_after
    (add_user_identifier 2 "123456789" "telegram" ;;
     create_regular_task 1 "Exercise" "1,2,3,4,5" ;;
     create_regular_task 2 "Reading" "6,7")
    two_users_session.

(** The session after the base task of a composed create is committed and
    its id read back. *)
Definition base_committed (user_id : Z) (name : string) (is_regular : bool)
    (s : Session) : Session :=
  answered EvQuery
    (after_commit (with_current (snd (insert_task user_id name is_regular (current s))) s)).

(** What a call [m] does when the id it is given matches no row, its
    "not found" message being [msg]: it raises an [Exception] whatever the
    engine does, the durable contents and the transaction's view stay as
    they were, nothing is committed, and when the engine answers the lookup
    the exception is the "not found" one. *)
Definition raises_not_found (m : M bool) (msg : string) (s : Session) : Prop :=
  exists e s',
    m s = (Raise (Exception e), s') /\
    committed s' = committed s /\
    current s' = current s /\
    commits (log s') = commits (log s) /\
    (answers s -> e = msg).

(** The five keys [get_task_details] always sets, in order. *)
Definition base_keys : list string := ["id"; "name"; "progress"; "is_regular"; "user_id"].



(** The constraints of models.py that the API relies on. *)
Definition schema_ok (d : Store) : Prop := pk_ok d = true /\ fk_ext_ok d = true.

(** A session between two calls: nothing pending, constraints satisfied. *)
Definition session_ok (s : Session) : Prop := clean s /\ schema_ok (current s).

(** The sessions the API can produce from an empty database, under any
    behaviour of the engine; queries change the schedule and the log only. *)
Inductive reachable : Session -> Prop :=
| reach_new (fs : list (option string)) :
    reachable (new_session empty_store fs)
| reach_exec (o : op) (s : Session) :
    reachable s -> reachable (session_after (exec o) s)
| reach_engine (s : Session) (fs : list (option string)) (lg : list event) :
    reachable s -> reachable (mkSession (committed s) (current s) fs lg).

(* ================================================================== *)
(** ** The read operations, as one type *)

(** What a read method returns. *)
Inductive answer :=
| AUser (u : option User.t)
| ATask (t : option Task.t)
| ADetails (d : option dict)
| ATasks (l : list Task.t).

Inductive query :=
| GetUser (user_id : Z)
| GetUserByIdentifier (identifier identifier_type : string)
| GetTask (task_id : Z)
| GetTaskDetails (task_id : Z)
| GetUserTasks (user_id : Z).

Definition answering {A} (inj : A -> answer) (m : M A) : M answer :=
  fun s =>
    match m s with
    | (Return a, s') => (Return (inj a), s')
    | (Raise e, s') => (Raise e, s')
    end.

(** The method call a [query] stands for. *)
Definition ask (q : query) : M answer :=
  match q with
  | GetUser u => answering AUser (get_user u)
  | GetUserByIdentifier i ty => answering AUser (get_user_by_identifier i ty)
  | GetTask t => answering ATask (get_task t)
  | GetTaskDetails t => answering ADetails (get_task_details t)
  | GetUserTasks u => answering ATasks (get_user_tasks u)
  end.

Definition is_rollback (e : event) : bool :=
  match e with
  | EvRollback => true
  | _ => false
  end.

(** Events that are neither a fault, a commit nor a rollback. *)
Definition is_plain_query (e : event) : bool :=
  match e with
  | EvQuery => true
  | _ => false
  end.

(* ================================================================== *)
(** ** config.py *)

(** [os.environ], as [load_dotenv()] leaves it. *)
Definition environ := string -> option string.

(** [os.environ.get(key, default)]: the default stands in for a variable
    that is not set, not for one set to the empty string. *)
Definition environ_get (env : environ) (key default : string) : string :=
  match env key with
  | Some v => v
  | None => default
  end.

Definition DB_USER (env : environ) : string := environ_get env "DB_USER" "postgres".
Definition DB_PASSWORD (env : environ) : string := environ_get env "DB_PASSWORD" "password".
Definition DB_HOST (env : environ) : string := environ_get env "DB_HOST" "localhost".
Definition DB_PORT (env : environ) : string := environ_get env "DB_PORT" "5432".
Definition DB_NAME (env : environ) : string := environ_get env "DB_NAME" "task_manager".

(** [f"postgresql://{DB_USER}:{DB_PASSWORD}@{DB_HOST}:{DB_PORT}/{DB_NAME}"] *)
Definition DB_URL (env : environ) : string :=
  ("postgresql://" ++ DB_USER env ++ ":" ++ DB_PASSWORD env ++ "@" ++ DB_HOST env
   ++ ":" ++ DB_PORT env ++ "/" ++ DB_NAME env)%string.

(** An environment given by its bindings, the first binding of a key
    winning. *)
Fixpoint environ_of (bindings : list (string * string)) : environ :=
  fun key =>
    match bindings with
    | [] => None
    | (k, v) :: rest => if String.eqb k key then Some v else environ_of rest key
    end.

(* ================================================================== *)
(** ** Lemmas on the session primitives *)

Lemma healthy_answers s : healthy s -> answers s.
Proof.
  unfold healthy, answers. destruct (faults s) as [|[c|] fs]; simpl; auto.
  discriminate.
Qed.

Lemma healthy_tl s s' : faults s' = tl (faults s) -> healthy s -> healthy s'.
Proof.
  unfold healthy. intros ->. destruct (faults s) as [|f fs]; simpl; auto.
  intros H. apply andb_true_iff in H. tauto.
Qed.

Lemma healthy_eq s s' : faults s' = faults s -> healthy s -> healthy s'.
Proof. unfold healthy. now intros ->. Qed.

Lemma engine_call_answers ev s :
  answers s -> engine_call ev s = (Return tt, answered ev s).
Proof.
  unfold answers, engine_call, answered.
  destruct (faults s) as [|[c|] fs]; simpl; intros H; try discriminate; reflexivity.
Qed.

Lemma engine_call_fault ev s cause fs :
  faults s = Some cause :: fs ->
  engine_call ev s =
    (Raise (SQLAlchemyError cause),
     mkSession (committed s) (current s) fs (EvFault cause :: log s)).
Proof. unfold engine_call. now intros ->. Qed.

Lemma query_first_answers {A} (table : Store -> list A) p s :
  answers s ->
  query_first table p s = (Return (find p (table (current s))), answered EvQuery s).
Proof.
  intros H. unfold query_first, bind. now rewrite (engine_call_answers _ _ H).
Qed.

Lemma query_all_answers {A} (table : Store -> list A) p s :
  answers s ->
  query_all table p s = (Return (filter p (table (current s))), answered EvQuery s).
Proof.
  intros H. unfold query_all, bind. now rewrite (engine_call_answers _ _ H).
Qed.

Lemma commit_answers s : answers s -> commit s = (Return tt, after_commit s).
Proof.
  intros H. unfold commit, bind. now rewrite (engine_call_answers _ _ H).
Qed.

Lemma commit_fault s cause fs :
  faults s = Some cause :: fs ->
  commit s =
    (Raise (SQLAlchemyError cause),
     mkSession (committed s) (current s) fs (EvFault cause :: log s)).
Proof.
  intros H. unfold commit, bind. now rewrite (engine_call_fault _ _ _ _ H).
Qed.

Lemma query_first_fault {A} (table : Store -> list A) p s cause fs :
  faults s = Some cause :: fs ->
  query_first table p s =
    (Raise (SQLAlchemyError cause),
     mkSession (committed s) (current s) fs (EvFault cause :: log s)).
Proof.
  intros H. unfold query_first, bind. now rewrite (engine_call_fault _ _ _ _ H).
Qed.

(** *** Facts about tables *)

Lemma next_id_above ids k : In k ids -> k < next_id ids.
Proof.
  unfold next_id. induction ids as [|i ids IH]; cbn [fold_right In]; [tauto|].
  intros [->|H]; [|specialize (IH H)]; lia.
Qed.

Lemma find_app {A} (p : A -> bool) l1 l2 :
  find p (l1 ++ l2) = match find p l1 with Some x => Some x | None => find p l2 end.
Proof.
  induction l1 as [|a l1 IH]; simpl; [reflexivity|]. now destruct (p a).
Qed.

Lemma find_none_iff {A} (p : A -> bool) l :
  find p l = None <-> forall x, In x l -> p x = false.
Proof.
  split; [apply find_none|].
  induction l as [|a l IH]; simpl; [reflexivity|]. intros H.
  rewrite (H a (or_introl eq_refl)). apply IH. intros x Hx. apply H. now right.
Qed.

(** No row of a table carries the key the next INSERT will receive. *)
Lemma find_next_id {A} (key : A -> Z) (rows : list A) :
  find (fun r => key r =? next_id (map key rows)) rows = None.
Proof.
  apply find_none_iff. intros x Hx. apply Z.eqb_neq.
  pose proof (next_id_above (map key rows) (key x) (in_map key _ _ Hx)). lia.
Qed.

(** After an update by key, looking the key up finds the updated row. *)
Lemma find_update_where {A} (key : A -> Z) (f : A -> A) k rows x :
  (forall r, key (f r) = key r) ->
  find (fun r => key r =? k) rows = Some x ->
  find (fun r => key r =? k) (update_where key k f rows) = Some (f x).
Proof.
  intros Hk. unfold update_where. induction rows as [|a rows IH]; simpl; [discriminate|].
  destruct (key a =? k) eqn:E.
  - intros [= ->]. simpl. now rewrite Hk, E.
  - intros H. simpl. rewrite E. auto.
Qed.

(** *** Health of the engine along a run *)

Lemma healthy_answered ev s : healthy s -> healthy (answered ev s).
Proof. apply healthy_tl. reflexivity. Qed.

Lemma healthy_after_commit s : healthy s -> healthy (after_commit s).
Proof. apply healthy_tl. reflexivity. Qed.

Lemma healthy_with_current d s : healthy s -> healthy (with_current d s).
Proof. apply healthy_eq. reflexivity. Qed.

Lemma healthy_new_session d : healthy (new_session d []).
Proof. reflexivity. Qed.

Create HintDb session.
#[local] Hint Resolve healthy_answers healthy_answered healthy_after_commit
  healthy_with_current healthy_new_session : session.

(** [stage] never talks to the engine. *)
Lemma stage_run {A} (f : Store -> A * Store) s :
  stage f s = (Return (fst (f (current s))), with_current (snd (f (current s))) s).
Proof. unfold stage, with_current. now destruct (f (current s)). Qed.

Lemma stage__run (f : Store -> Store) s :
  stage_ f s = (Return tt, with_current (f (current s)) s).
Proof. unfold stage_. now rewrite stage_run. Qed.

(** The read of an expired [id] is one more round trip. *)
Lemma reload_id_answers {A} (id : A -> Z) (obj : A) s :
  answers s -> reload_id id obj s = (Return (id obj), answered EvQuery s).
Proof. intros H. unfold reload_id, bind. now rewrite (engine_call_answers _ _ H). Qed.

Lemma reload_id_fault {A} (id : A -> Z) (obj : A) s cause fs :
  faults s = Some cause :: fs ->
  reload_id id obj s =
    (Raise (SQLAlchemyError cause),
     mkSession (committed s) (current s) fs (EvFault cause :: log s)).
Proof. intros H. unfold reload_id, bind. now rewrite (engine_call_fault _ _ _ _ H). Qed.

(** Rewrites the next statement of a method run on a healthy engine. *)
Ltac run_step :=
  first
    [ rewrite stage__run
    | rewrite stage_run
    | rewrite commit_answers by auto with session
    | rewrite reload_id_answers by auto with session
    | rewrite query_first_answers by auto with session
    | rewrite query_all_answers by auto with session ];
  cbv beta iota.

Ltac run := unfold try_except, bind; repeat run_step.

(** *** The creates on a healthy engine *)


Lemma add_user_identifier_run user_id identifier identifier_type s :
  healthy s ->
  add_user_identifier user_id identifier identifier_type s =
    (Return (next_id (map UserID.id (user_ids (current s)))),
     answered EvQuery
       (after_commit
          (with_current
             (snd (insert_user_id user_id identifier identifier_type (current s))) s))).
Proof. intros H. unfold add_user_identifier. run. reflexivity. Qed.

Lemma create_task_run user_id name is_regular s :
  answers s ->
  answers (after_commit s) ->
  create_task user_id name is_regular s =
    (Return (next_id (map Task.id (tasks (current s)))),
     base_committed user_id name is_regular s).
Proof.
  intros H H'. unfold create_task, try_except, bind. rewrite stage_run.
  rewrite commit_answers by exact H. rewrite reload_id_answers by exact H'.
  reflexivity.
Qed.

Lemma healthy_base_committed user_id name is_regular s :
  healthy s -> healthy (base_committed user_id name is_regular s).
Proof. intros H. unfold base_committed. auto with session. Qed.

Lemma create_regular_task_run user_id name weekdays s :
  healthy s ->
  create_regular_task user_id name weekdays s =
    (Return (next_id (map Task.id (tasks (current s)))),
     after_commit
       (with_current
          (snd (insert_regular_task (next_id (map Task.id (tasks (current s)))) weekdays
                  (current (base_committed user_id name true s))))
          (base_committed user_id name true s))).
Proof.
  intros H. unfold create_regular_task, try_except, bind.
  rewrite create_task_run by auto with session.
  pose proof (healthy_base_committed user_id name true s H).
  run. reflexivity.
Qed.

Lemma create_irregular_task_run user_id name od hd s :
  healthy s ->
  create_irregular_task user_id name od hd s =
    (Return (next_id (map Task.id (tasks (current s)))),
     after_commit
       (with_current
          (snd (insert_irregular_task (next_id (map Task.id (tasks (current s)))) od hd
                  (current (base_committed user_id name false s))))
          (base_committed user_id name false s))).
Proof.
  intros H. unfold create_irregular_task, try_except, bind.
  rewrite create_task_run by auto with session.
  pose proof (healthy_base_committed user_id name false s H).
  run. reflexivity.
Qed.

(* ================================================================== *)
(** ** Users: create and fetch *)

Lemma excess_fits n s : (characters s <= n)%nat -> excess n s = "".
Proof.
  revert n. induction s as [|c s IH]; intros n H; cbn [excess characters] in *;
    [reflexivity|].
  destruct (is_continuation c); [now apply IH|].
  destruct n as [|n]; [lia|]. apply IH. lia.
Qed.

(** A value that fits the column is not refused. *)
Lemma fits_String_not_refused n s : fits_String n s = true -> String_refused n s = false.
Proof.
  unfold fits_String, String_refused. intros H. apply Nat.leb_le in H.
  now rewrite excess_fits.
Qed.

Lemma healthy_schedule s fs : faults s = fs -> forallb no_fault fs = true -> healthy s.
Proof. unfold healthy. now intros ->. Qed.





(* ================================================================== *)
(** ** Task progress *)

Lemma update_task_progress_run task_id progress s t :
  healthy s ->
  find (fun x => Task.id x =? task_id) (tasks (current s)) = Some t ->
  update_task_progress task_id progress s =
    (Return true,
     after_commit
       (with_current
          (on_tasks (update_where Task.id (Task.id t) (Task.set_progress progress))
             (current s))
          (answered EvQuery s))).
Proof.
  intros H Ht. unfold update_task_progress. run.
  cbn [current answered]. rewrite Ht. run. reflexivity.
Qed.

(** The lookup answered, the UPDATE refused. *)
Lemma update_task_progress_refused task_id progress s t cause fs :
  faults s = None :: Some cause :: fs ->
  find (fun x => Task.id x =? task_id) (tasks (current s)) = Some t ->
  update_task_progress task_id progress s =
    (Raise (Exception (err_update_task_progress ++ cause)),
     mkSession (committed s) (committed s) fs
       (EvRollback :: EvFault cause :: EvQuery :: log s)).
Proof.
  intros E Ht. unfold update_task_progress, try_except, bind.
  rewrite query_first_answers by (unfold answers; now rewrite E).
  cbn [current answered]. rewrite Ht. rewrite stage__run.
  erewrite commit_fault by (cbn; rewrite E; reflexivity). reflexivity.
Qed.

Lemma find_key_eq {A} (key : A -> Z) k rows x :
  find (fun r => key r =? k) rows = Some x -> key x = k.
Proof. intros H. apply find_some in H. now apply Z.eqb_eq. Qed.

(** For a stored task [T] and any integer [p], [update_task_progress T p]
    succeeds on an engine that answers, the change is committed, and
    fetching [T] again shows [progress = p] with the other columns as they
    were. *)
Lemma update_task_progress_then_get_task (T p : Z) (s : Session) (t : Task.t) :
  healthy s ->
  find (fun x => Task.id x =? T) (tasks (current s)) = Some t ->
  exists s1 s2 t',
    update_task_progress T p s = (Return true, s1) /\
    committed s1 = current s1 /\
    get_task T s1 = (Return (Some t'), s2) /\
    Task.progress t' = p /\
    Task.id t' = T /\ Task.user_id t' = Task.user_id t /\
    Task.name t' = Task.name t /\ Task.is_regular t' = Task.is_regular t.
Proof.
  intros H Ht. rewrite (update_task_progress_run T p s t H Ht).
  eexists _, _, (Task.set_progress p t). split; [reflexivity|]. split; [reflexivity|].
  split.
  - unfold get_task. run.
    cbn [current after_commit with_current answered on_tasks tasks set_tasks].
    rewrite (find_key_eq Task.id T _ t Ht).
    rewrite (find_update_where Task.id (Task.set_progress p) T _ t); auto.
  - cbn. repeat split. exact (find_key_eq Task.id T _ t Ht).
Qed.

(** [tasks.progress] is [Column(Integer)]: the engine refuses 2^31, the
    call raises, and the stored progress stays 0. *)
Lemma update_task_progress_refuses_2_pow_31 :
  find (fun x => Task.id x =? 1) (tasks (current demo_session))
    = Some (Task.mk 1 1 "Exercise" 0 true) /\
  exists s1 s2,
    update_task_progress 1 2147483648
      (new_session (current demo_session)
         (engine_update_task_progress "integer out of range" 2147483648))
    = (Raise (Exception (err_update_task_progress ++ "integer out of range")), s1) /\
    get_task 1 s1 = (Return (Some (Task.mk 1 1 "Exercise" 0 true)), s2).
Proof.
  split; [vm_compute; reflexivity|].
  eexists _, _. split; vm_compute; reflexivity.
Qed.

(** C6.  For a stored task [T], on the engine as models.py configures it:
    - for every integer [p] of the signed 32-bit range of the [Integer]
      column, in or out of 0..100, [update_task_progress T p] succeeds, the
      change is committed, and fetching [T] again shows [progress = p] with
      the other columns as they were;
    - for every other [p] the call raises an [Exception] with the engine's
      refusal, and on a session with nothing pending fetching [T] again
      shows the task as it was. *)
Theorem update_task_progress_stores_what_the_column_holds
    (refusal : string) (T p : Z) (s : Session) (t : Task.t) :
  faults s = engine_update_task_progress refusal p ->
  find (fun x => Task.id x =? T) (tasks (current s)) = Some t ->
  (fits_Integer p = true ->
   exists s1 s2 t',
     update_task_progress T p s = (Return true, s1) /\
     committed s1 = current s1 /\
     get_task T s1 = (Return (Some t'), s2) /\
     Task.progress t' = p /\
     Task.id t' = T /\ Task.user_id t' = Task.user_id t /\
     Task.name t' = Task.name t /\ Task.is_regular t' = Task.is_regular t) /\
  (fits_Integer p = false ->
   clean s ->
   exists s1 s2,
     update_task_progress T p s
       = (Raise (Exception (err_update_task_progress ++ refusal)), s1) /\
     committed s1 = committed s /\
     get_task T s1 = (Return (Some t), s2)).
Proof.
  intros E Ht. unfold engine_update_task_progress in E. split; intros Hp.
  - rewrite Hp in E. apply update_task_progress_then_get_task; [|exact Ht].
    now apply (healthy_schedule _ _ E).
  - intros Hclean. rewrite Hp in E. cbn [negb flush_answer] in E.
    rewrite (update_task_progress_refused T p s t refusal [] E Ht).
    eexists _, _. split; [reflexivity|]. split; [reflexivity|].
    unfold get_task. rewrite query_first_answers by reflexivity.
    cbn [current]. unfold clean in Hclean. now rewrite <- Hclean, Ht.
Qed.

Lemma update_task_progress_stores_what_the_column_holds_witness :
  faults (new_session (current demo_session)
            (engine_update_task_progress "integer out of range" (-150)))
    = engine_update_task_progress "integer out of range" (-150) /\
  find (fun x => Task.id x =? 1) (tasks (current demo_session))
    = Some (Task.mk 1 1 "Exercise" 0 true) /\
  fits_Integer (-150) = true /\
  exists s1 s2 t',
    update_task_progress 1 (-150)
      (new_session (current demo_session)
         (engine_update_task_progress "integer out of range" (-150)))
      = (Return true, s1) /\
    committed s1 = current s1 /\
    get_task 1 s1 = (Return (Some t'), s2) /\
    Task.progress t' = -150 /\
    Task.id t' = 1 /\ Task.user_id t' = 1 /\
    Task.name t' = "Exercise" /\ Task.is_regular t' = true.
Proof.
  split; [reflexivity|]. split; [vm_compute; reflexivity|]. split; [reflexivity|].
  apply (proj1 (update_task_progress_stores_what_the_column_holds
                  "integer out of range" 1 (-150)
                  (new_session (current demo_session)
                     (engine_update_task_progress "integer out of range" (-150)))
                  (Task.mk 1 1 "Exercise" 0 true)
                  eq_refl ltac:(vm_compute; reflexivity))).
  reflexivity.
Defined.

(* ================================================================== *)
(** ** Operations on an id that matches no row *)

(** The common shape of the four methods: look the row up, raise when it is
    missing. *)
Lemma lookup_miss {A} (table : Store -> list A) (p : A -> bool) (msg ctx : string)
    (k : A -> M bool) (s : Session) :
  clean s ->
  find p (table (current s)) = None ->
  raises_not_found
    (try_except
       (x <- query_first table p ;;
        match x with
        | None => raise (Exception msg)
        | Some a => k a
        end)
       (rollback_and_raise ctx))
    msg s.
Proof.
  intros Hc Hf. unfold raises_not_found.
  destruct (faults s) as [|[cause|] fs] eqn:E.
  - assert (Ha : answers s) by (unfold answers; now rewrite E).
    unfold try_except, bind. rewrite query_first_answers by exact Ha. rewrite Hf.
    eexists _, _. split; [reflexivity|]. repeat split; auto.
  - unfold try_except, bind. rewrite (query_first_fault _ _ _ _ _ E).
    eexists _, _. split; [reflexivity|]. cbn. repeat split; auto.
    unfold answers. rewrite E. discriminate.
  - assert (Ha : answers s) by (unfold answers; now rewrite E).
    unfold try_except, bind. rewrite query_first_answers by exact Ha. rewrite Hf.
    eexists _, _. split; [reflexivity|]. repeat split; auto.
Qed.

(** C2.  When no user has id [uid] and no task has id [tid], each of
    [update_user], [delete_user], [update_task_progress] and [delete_task]
    raises; the store is left exactly as it was and nothing is committed;
    and whenever the engine answers the lookup, the exception raised is the
    "not found" one for that id.  None of them returns. *)
Theorem missing_id_raises_not_found_and_changes_nothing
    (uid tid : Z) (name : string) (p : Z) (s : Session) :
  clean s ->
  find (fun u => User.id u =? uid) (users (current s)) = None ->
  find (fun t => Task.id t =? tid) (tasks (current s)) = None ->
  raises_not_found (update_user uid name) (user_not_found uid) s /\
  raises_not_found (delete_user uid) (user_not_found uid) s /\
  raises_not_found (update_task_progress tid p) (task_not_found tid) s /\
  raises_not_found (delete_task tid) (task_not_found tid) s.
Proof.
  intros Hc Hu Ht. repeat split.
  - exact (lookup_miss users _ _ err_update_user _ s Hc Hu).
  - exact (lookup_miss users _ _ err_delete_user _ s Hc Hu).
  - exact (lookup_miss tasks _ _ err_update_task_progress _ s Hc Ht).
  - exact (lookup_miss tasks _ _ err_delete_task _ s Hc Ht).
Qed.

Lemma missing_id_raises_not_found_and_changes_nothing_witness :
  clean demo_session /\
  find (fun u => User.id u =? 7) (users (current demo_session)) = None /\
  find (fun t => Task.id t =? 9) (tasks (current demo_session)) = None /\
  raises_not_found (update_user 7 "Olga") (user_not_found 7) demo_session /\
  raises_not_found (delete_user 7) (user_not_found 7) demo_session /\
  raises_not_found (update_task_progress 9 50) (task_not_found 9) demo_session /\
  raises_not_found (delete_task 9) (task_not_found 9) demo_session.
Proof.
  split; [vm_compute; reflexivity|]. split; [vm_compute; reflexivity|].
  split; [vm_compute; reflexivity|].
  apply (missing_id_raises_not_found_and_changes_nothing 7 9 "Olga" 50 demo_session);
    vm_compute; reflexivity.
Defined.

(* ================================================================== *)
(** ** Partial updates of the extension rows *)

Lemma update_regular_task_nothing_to_write task_id s rt :
  healthy s ->
  find (fun r => RegularTask.task_id r =? task_id) (regular_tasks (current s)) = Some rt ->
  update_regular_task task_id None None s
    = (Return true, after_commit (answered EvQuery s)).
Proof.
  intros H Hr. unfold update_regular_task. run. cbn [current answered]. rewrite Hr.
  cbn [if_str]. unfold ret. run. reflexivity.
Qed.

Lemma update_irregular_task_nothing_to_write task_id s it :
  healthy s ->
  find (fun r => IrregularTask.task_id r =? task_id) (irregular_tasks (current s)) = Some it ->
  update_irregular_task task_id None None None s
    = (Return true, after_commit (answered EvQuery s)).
Proof.
  intros H Hr. unfold update_irregular_task. run. cbn [current answered]. rewrite Hr.
  cbn [if_str if_date]. unfold ret. run. reflexivity.
Qed.

(** C10.  In [update_regular_task] and [update_irregular_task] the empty
    string passed as [name], or as [weekdays], runs exactly as an omitted
    argument does, in every session.  In particular, for a stored extension
    row and an engine that answers, a call whose string arguments are all
    empty returns [True] and commits a store in which every row is as it
    was. *)
Theorem empty_string_argument_is_ignored :
  (forall task_id weekdays,
      update_regular_task task_id (Some "") weekdays
      = update_regular_task task_id None weekdays) /\
  (forall task_id name,
      update_regular_task task_id name (Some "")
      = update_regular_task task_id name None) /\
  (forall task_id optimal_deadline hard_deadline,
      update_irregular_task task_id (Some "") optimal_deadline hard_deadline
      = update_irregular_task task_id None optimal_deadline hard_deadline) /\
  (forall task_id s rt,
      healthy s ->
      find (fun r => RegularTask.task_id r =? task_id) (regular_tasks (current s)) = Some rt ->
      exists s',
        update_regular_task task_id (Some "") (Some "") s = (Return true, s') /\
        current s' = current s /\ committed s' = current s) /\
  (forall task_id s it,
      healthy s ->
      find (fun r => IrregularTask.task_id r =? task_id) (irregular_tasks (current s))
        = Some it ->
      exists s',
        update_irregular_task task_id (Some "") None None s = (Return true, s') /\
        current s' = current s /\ committed s' = current s).
Proof.
  split; [reflexivity|]. split; [reflexivity|]. split; [reflexivity|]. split.
  - intros task_id s rt H Hr.
    change (update_regular_task task_id (Some "") (Some ""))
      with (update_regular_task task_id None None).
    rewrite (update_regular_task_nothing_to_write task_id s rt H Hr).
    eexists. repeat split.
  - intros task_id s it H Hr.
    change (update_irregular_task task_id (Some "") None None)
      with (update_irregular_task task_id None None None).
    rewrite (update_irregular_task_nothing_to_write task_id s it H Hr).
    eexists. repeat split.
Qed.

Lemma empty_string_argument_is_ignored_witness :
  healthy demo_session /\
  find (fun r => RegularTask.task_id r =? 1) (regular_tasks (current demo_session))
    = Some (RegularTask.mk 1 1 "1,2,3,4,5") /\
  exists s',
    update_regular_task 1 (Some "") (Some "") demo_session = (Return true, s') /\
    current s' = current demo_session /\ committed s' = current demo_session.
Proof.
  split; [reflexivity|]. split; [reflexivity|].
  destruct empty_string_argument_is_ignored as (_ & _ & _ & Hreg & _).
  apply (Hreg 1 demo_session (RegularTask.mk 1 1 "1,2,3,4,5")); reflexivity.
Defined.

(* ================================================================== *)
(** ** The composed creates *)

Lemma mem_id_In k ids : mem_id k ids = true <-> In k ids.
Proof.
  unfold mem_id. rewrite existsb_exists. split.
  - intros (x & Hx & E). apply Z.eqb_eq in E. now subst.
  - intros H. exists k. split; [exact H|apply Z.eqb_refl].
Qed.

(** Under the foreign keys no extension row references the id the next task
    will receive. *)
Lemma fk_ext_fresh d :
  fk_ext_ok d = true ->
  find (fun r => RegularTask.task_id r =? next_id (map Task.id (tasks d))) (regular_tasks d)
    = None /\
  find (fun r => IrregularTask.task_id r =? next_id (map Task.id (tasks d)))
    (irregular_tasks d) = None.
Proof.
  unfold fk_ext_ok. rewrite andb_true_iff, !forallb_forall. intros [Hr Hi].
  split; apply find_none_iff; intros x Hx; apply Z.eqb_neq.
  - specialize (Hr x Hx). apply mem_id_In, next_id_above in Hr. lia.
  - specialize (Hi x Hx). apply mem_id_In, next_id_above in Hi. lia.
Qed.

Lemma create_regular_task_second_commit_fails user_id name weekdays cause rest s :
  faults s = None :: None :: Some cause :: rest ->
  create_regular_task user_id name weekdays s =
    (Raise (Exception (err_create_regular_task ++ cause)),
     mkSession (current (base_committed user_id name true s))
       (current (base_committed user_id name true s)) rest
       (EvRollback :: EvFault cause :: log (base_committed user_id name true s))).
Proof.
  intros E. unfold create_regular_task, try_except, bind.
  rewrite create_task_run by (unfold answers; cbn; now rewrite E).
  rewrite stage_run.
  erewrite commit_fault by (cbn; rewrite E; reflexivity). reflexivity.
Qed.

Lemma create_irregular_task_second_commit_fails user_id name od hd cause rest s :
  faults s = None :: None :: Some cause :: rest ->
  create_irregular_task user_id name od hd s =
    (Raise (Exception (err_create_irregular_task ++ cause)),
     mkSession (current (base_committed user_id name false s))
       (current (base_committed user_id name false s)) rest
       (EvRollback :: EvFault cause :: log (base_committed user_id name false s))).
Proof.
  intros E. unfold create_irregular_task, try_except, bind.
  rewrite create_task_run by (unfold answers; cbn; now rewrite E).
  rewrite stage_run.
  erewrite commit_fault by (cbn; rewrite E; reflexivity). reflexivity.
Qed.

(** C3.  Take any session whose engine answers the first commit and the
    read of the new task's id, and raises on the second commit.
    [create_regular_task] then raises an [Exception], yet
    the durable store holds the new base task, with [is_regular] set, and no
    [RegularTask] or [IrregularTask] row references it; the same holds for
    [create_irregular_task] with [is_regular] unset. *)
Theorem composed_create_is_not_atomic
    (U : Z) (name weekdays : string) (od hd : date)
    (cause : string) (rest : list (option string)) (s : Session) :
  faults s = None :: None :: Some cause :: rest ->
  fk_ext_ok (current s) = true ->
  (exists s',
      create_regular_task U name weekdays s
        = (Raise (Exception (err_create_regular_task ++ cause)), s') /\
      In (Task.mk (next_id (map Task.id (tasks (current s)))) U name 0 true)
        (tasks (committed s')) /\
      find (fun r => RegularTask.task_id r =? next_id (map Task.id (tasks (current s))))
        (regular_tasks (committed s')) = None /\
      find (fun r => IrregularTask.task_id r =? next_id (map Task.id (tasks (current s))))
        (irregular_tasks (committed s')) = None /\
      current s' = committed s') /\
  (exists s',
      create_irregular_task U name od hd s
        = (Raise (Exception (err_create_irregular_task ++ cause)), s') /\
      In (Task.mk (next_id (map Task.id (tasks (current s)))) U name 0 false)
        (tasks (committed s')) /\
      find (fun r => RegularTask.task_id r =? next_id (map Task.id (tasks (current s))))
        (regular_tasks (committed s')) = None /\
      find (fun r => IrregularTask.task_id r =? next_id (map Task.id (tasks (current s))))
        (irregular_tasks (committed s')) = None /\
      current s' = committed s').
Proof.
  intros E Hfk. destruct (fk_ext_fresh _ Hfk) as [Hr Hi]. split.
  - rewrite (create_regular_task_second_commit_fails U name weekdays cause rest s E).
    eexists. split; [reflexivity|]. cbn. repeat split; auto.
    apply in_or_app. right. now left.
  - rewrite (create_irregular_task_second_commit_fails U name od hd cause rest s E).
    eexists. split; [reflexivity|]. cbn. repeat split; auto.
    apply in_or_app. right. now left.
Qed.

Lemma composed_create_is_not_atomic_witness :
  faults (new_session (current demo_session) [None; None; Some "connection lost"])
    = [None; None; Some "connection lost"] /\
  fk_ext_ok (current demo_session) = true /\
  exists s',
    create_regular_task 1 "Reading" "6,7"
      (new_session (current demo_session) [None; None; Some "connection lost"])
      = (Raise (Exception (err_create_regular_task ++ "connection lost")), s') /\
    In (Task.mk 2 1 "Reading" 0 true) (tasks (committed s')) /\
    find (fun r => RegularTask.task_id r =? 2) (regular_tasks (committed s')) = None /\
    find (fun r => IrregularTask.task_id r =? 2) (irregular_tasks (committed s')) = None /\
    current s' = committed s'.
Proof.
  split; [reflexivity|]. split; [reflexivity|].
  apply (composed_create_is_not_atomic 1 "Reading" "6,7" (mkDate 2025 5 10) (mkDate 2025 5 15)
           "connection lost" []
           (new_session (current demo_session) [None; None; Some "connection lost"]));
    reflexivity.
Defined.

(* ================================================================== *)
(** ** Task details *)

(** The extension lookups of [get_task_details] for a task [t]. *)
Lemma get_task_details_run task_id s t :
  healthy s ->
  find (fun x => Task.id x =? task_id) (tasks (current s)) = Some t ->
  get_task_details task_id s =
    (Return
       (Some
          (let result :=
             [("id", VInt (Task.id t)); ("name", VStr (Task.name t));
              ("progress", VInt (Task.progress t));
              ("is_regular", VBool (Task.is_regular t));
              ("user_id", VInt (Task.user_id t))] in
           if Task.is_regular t then
             match find (fun r => RegularTask.task_id r =? Task.id t)
                     (regular_tasks (current s)) with
             | Some r => dict_set "weekdays" (VStr (RegularTask.weekdays r)) result
             | None => result
             end
           else
             match find (fun r => IrregularTask.task_id r =? Task.id t)
                     (irregular_tasks (current s)) with
             | Some r =>
                 dict_set "hard_deadline" (VDate (IrregularTask.hard_deadline r))
                   (dict_set "optimal_deadline" (VDate (IrregularTask.optimal_deadline r))
                      result)
             | None => result
             end)),
     answered EvQuery (answered EvQuery s)).
Proof.
  intros H Ht. unfold get_task_details, get_task. run. cbn [current answered]. rewrite Ht.
  cbv zeta. destruct (Task.is_regular t).
  - unfold Task_regular_task. run. cbn [current answered].
    now destruct (find _ (regular_tasks (current s))).
  - unfold Task_irregular_task. run. cbn [current answered].
    now destruct (find _ (irregular_tasks (current s))).
Qed.

Lemma get_task_details_missing task_id s :
  answers s ->
  find (fun x => Task.id x =? task_id) (tasks (current s)) = None ->
  get_task_details task_id s = (Return None, answered EvQuery s).
Proof.
  intros H Ht. unfold get_task_details, get_task, bind.
  rewrite query_first_answers by exact H. now rewrite Ht.
Qed.

(** C1.  On an engine that answers:
    - for a stored task [t], [get_task_details] returns a dictionary holding
      the five base columns of [t]; when [is_regular] is set and a
      [RegularTask] row references [t] it also holds that row's [weekdays];
      when [is_regular] is unset and an [IrregularTask] row references [t]
      it also holds that row's two deadlines; it holds no other key, and the
      store is not changed;
    - right after [create_regular_task U "Exercise" "1,2,3,4,5"], the
      details of the new id are name "Exercise", is_regular true, weekdays
      "1,2,3,4,5" and progress 0, with the new id and [U];
    - for an id with no [Task] row the result is [None]. *)
Theorem get_task_details_merges_extension :
  (forall task_id s t,
      healthy s ->
      find (fun x => Task.id x =? task_id) (tasks (current s)) = Some t ->
      exists d s',
        get_task_details task_id s = (Return (Some d), s') /\
        current s' = current s /\ committed s' = committed s /\
        dict_get "id" d = Some (VInt task_id) /\
        dict_get "name" d = Some (VStr (Task.name t)) /\
        dict_get "progress" d = Some (VInt (Task.progress t)) /\
        dict_get "is_regular" d = Some (VBool (Task.is_regular t)) /\
        dict_get "user_id" d = Some (VInt (Task.user_id t)) /\
        (forall r,
            Task.is_regular t = true ->
            find (fun r => RegularTask.task_id r =? task_id) (regular_tasks (current s))
              = Some r ->
            dict_get "weekdays" d = Some (VStr (RegularTask.weekdays r)) /\
            dict_keys d = (base_keys ++ ["weekdays"])%list) /\
        (forall r,
            Task.is_regular t = false ->
            find (fun r => IrregularTask.task_id r =? task_id) (irregular_tasks (current s))
              = Some r ->
            dict_get "optimal_deadline" d = Some (VDate (IrregularTask.optimal_deadline r)) /\
            dict_get "hard_deadline" d = Some (VDate (IrregularTask.hard_deadline r)) /\
            dict_keys d = (base_keys ++ ["optimal_deadline"; "hard_deadline"])%list) /\
        (Task.is_regular t = true ->
         find (fun r => RegularTask.task_id r =? task_id) (regular_tasks (current s)) = None ->
         dict_keys d = base_keys) /\
        (Task.is_regular t = false ->
         find (fun r => IrregularTask.task_id r =? task_id) (irregular_tasks (current s))
           = None ->
         dict_keys d = base_keys)) /\
  (forall U s,
      healthy s ->
      fk_ext_ok (current s) = true ->
      exists new_id s1 s2,
        create_regular_task U "Exercise" "1,2,3,4,5" s = (Return new_id, s1) /\
        get_task_details new_id s1
          = (Return
               (Some
                  [("id", VInt new_id); ("name", VStr "Exercise"); ("progress", VInt 0);
                   ("is_regular", VBool true); ("user_id", VInt U);
                   ("weekdays", VStr "1,2,3,4,5")]),
             s2)) /\
  (forall task_id s,
      healthy s ->
      find (fun x => Task.id x =? task_id) (tasks (current s)) = None ->
      exists s',
        get_task_details task_id s = (Return None, s') /\
        current s' = current s /\ committed s' = committed s).
Proof.
  split; [|split].
  - intros task_id s t H Ht.
    rewrite (get_task_details_run task_id s t H Ht).
    pose proof (find_key_eq Task.id task_id _ t Ht) as Hid. rewrite Hid.
    eexists _, _. split; [reflexivity|]. split; [reflexivity|]. split; [reflexivity|].
    cbv zeta.
    destruct (Task.is_regular t);
      [destruct (find _ (regular_tasks (current s))) as [r0|]
      |destruct (find _ (irregular_tasks (current s))) as [r0|]];
      cbn; repeat match goal with |- _ /\ _ => split end;
      try reflexivity; try (intros; discriminate);
      intros r _ [= <-]; repeat split; reflexivity.
  - intros U s H Hfk. rewrite (create_regular_task_run U _ _ s H).
    eexists _, _, _. split; [reflexivity|].
    erewrite get_task_details_run.
    2:{ unfold base_committed; auto with session. }
    2:{ cbn [answered current after_commit with_current base_committed insert_regular_task
             insert_task snd tasks set_tasks set_regular_tasks].
        rewrite find_app, find_next_id. cbn [find Task.id]. rewrite Z.eqb_refl.
        reflexivity. }
    cbn [answered current after_commit with_current base_committed insert_regular_task
         insert_task snd tasks set_tasks set_regular_tasks regular_tasks
         Task.id Task.name Task.progress Task.is_regular Task.user_id].
    cbv zeta. rewrite find_app. destruct (fk_ext_fresh _ Hfk) as [-> _].
    cbn [find RegularTask.task_id]. rewrite Z.eqb_refl. reflexivity.
  - intros task_id s H Ht.
    rewrite (get_task_details_missing task_id s (healthy_answers _ H) Ht).
    eexists. repeat split.
Qed.

Lemma get_task_details_merges_extension_witness :
  healthy (new_session empty_store []) /\
  fk_ext_ok (current (new_session empty_store [])) = true /\
  exists new_id s1 s2,
    create_regular_task 1 "Exercise" "1,2,3,4,5" (new_session empty_store [])
      = (Return new_id, s1) /\
    get_task_details new_id s1
      = (Return
           (Some
              [("id", VInt new_id); ("name", VStr "Exercise"); ("progress", VInt 0);
               ("is_regular", VBool true); ("user_id", VInt 1);
               ("weekdays", VStr "1,2,3,4,5")]),
         s2).
Proof.
  split; [reflexivity|]. split; [reflexivity|].
  destruct get_task_details_merges_extension as (_ & Hcreate & _).
  apply (Hcreate 1 (new_session empty_store [])); reflexivity.
Defined.

(* ================================================================== *)
(** ** Lookup by external identifier *)

Lemma same_identifier_true identifier identifier_type r :
  same_identifier identifier identifier_type r = true <->
  UserID.identifier r = identifier /\ UserID.identifier_type r = identifier_type.
Proof.
  unfold same_identifier. now rewrite andb_true_iff, !String.eqb_eq.
Qed.

Lemma get_user_by_identifier_run identifier identifier_type s :
  healthy s ->
  get_user_by_identifier identifier identifier_type s =
    match find (same_identifier identifier identifier_type) (user_ids (current s)) with
    | Some r =>
        (Return (find (fun u => User.id u =? UserID.user_id r) (users (current s))),
         answered EvQuery (answered EvQuery s))
    | None => (Return None, answered EvQuery s)
    end.
Proof.
  intros H. unfold get_user_by_identifier. run. cbn [current answered].
  destruct (find _ (user_ids (current s))) as [r|]; [|reflexivity].
  unfold UserID_user. run. reflexivity.
Qed.

(** C5, as the specification states it, fails: two users may register the
    same (identifier, type) pair, and the lookup then returns the owner of
    the first stored row.  User 2 adds ("123456789", "telegram"), which user
    1 holds already; the lookup returns user 1. *)
Lemma identifier_lookup_returns_first_owner :
  find (fun x => User.id x =? 2) (users (current two_users_session))
    = Some (User.mk 2 "Boris") /\
  exists k s1 s2,
    add_user_identifier 2 "123456789" "telegram" two_users_session = (Return k, s1) /\
    get_user_by_identifier "123456789" "telegram" s1
      = (Return (Some (User.mk 1 "Anna")), s2) /\
    User.mk 1 "Anna" <> User.mk 2 "Boris".
Proof.
  split; [reflexivity|]. eexists _, _, _.
  split; [vm_compute; reflexivity|]. split; [vm_compute; reflexivity|]. discriminate.
Qed.

(** C5, amended.  On an engine that answers:
    - if [U] is a stored user and every stored [UserID] row carrying the
      pair (identifier, identifier_type) belongs to [U] (in particular when
      no row carries it), then [add_user_identifier U identifier
      identifier_type] succeeds and [get_user_by_identifier] of the pair
      returns [U];
    - for a pair that no stored [UserID] row carries,
      [get_user_by_identifier] returns [None]. *)
Theorem identifier_lookup_after_add :
  (forall U u identifier identifier_type s,
      healthy s ->
      find (fun x => User.id x =? U) (users (current s)) = Some u ->
      (forall r,
          In r (user_ids (current s)) ->
          UserID.identifier r = identifier ->
          UserID.identifier_type r = identifier_type ->
          UserID.user_id r = U) ->
      exists k s1 s2,
        add_user_identifier U identifier identifier_type s = (Return k, s1) /\
        get_user_by_identifier identifier identifier_type s1 = (Return (Some u), s2)) /\
  (forall identifier identifier_type s,
      healthy s ->
      (forall r,
          In r (user_ids (current s)) ->
          ~ (UserID.identifier r = identifier /\
             UserID.identifier_type r = identifier_type)) ->
      exists s',
        get_user_by_identifier identifier identifier_type s = (Return None, s')).
Proof.
  split.
  - intros U u i ty s H Hu Hown.
    rewrite (add_user_identifier_run U i ty s H).
    eexists _, _, _. split; [reflexivity|].
    rewrite get_user_by_identifier_run by auto with session.
    cbn [answered current after_commit with_current insert_user_id snd user_ids users
         set_user_ids].
    rewrite find_app.
    destruct (find (same_identifier i ty) (user_ids (current s))) as [r|] eqn:Er.
    + destruct (find_some _ _ Er) as [Hin Hsame].
      apply same_identifier_true in Hsame. destruct Hsame as [Hi Hty].
      rewrite (Hown r Hin Hi Hty), Hu. reflexivity.
    + cbn [find]. unfold same_identifier at 1.
      cbn [UserID.identifier UserID.identifier_type UserID.user_id].
      rewrite !String.eqb_refl. cbn [andb UserID.user_id]. rewrite Hu. reflexivity.
  - intros i ty s H Hnone.
    rewrite get_user_by_identifier_run by exact H.
    destruct (find (same_identifier i ty) (user_ids (current s))) as [r|] eqn:Er.
    + destruct (find_some _ _ Er) as [Hin Hsame].
      apply same_identifier_true in Hsame. now destruct (Hnone r Hin).
    + eexists. reflexivity.
Qed.

Lemma identifier_lookup_after_add_witness :
  healthy two_users_session /\
  find (fun x => User.id x =? 1) (users (current two_users_session))
    = Some (User.mk 1 "Anna") /\
  exists k s1 s2,
    add_user_identifier 1 "123456789" "telegram" two_users_session = (Return k, s1) /\
    get_user_by_identifier "123456789" "telegram" s1
      = (Return (Some (User.mk 1 "Anna")), s2).
Proof.
  split; [reflexivity|]. split; [reflexivity|].
  destruct identifier_lookup_after_add as [Hadd _].
  apply (Hadd 1 (User.mk 1 "Anna") "123456789" "telegram" two_users_session).
  - reflexivity.
  - reflexivity.
  - intros r [<-|[]] _ _. reflexivity.
Defined.

(* ================================================================== *)
(** ** Deleting a user *)

(** A primary key identifies its row. *)
Lemma distinct_key_inj {A} (key : A -> Z) rows x y :
  distinct (map key rows) = true ->
  In x rows -> In y rows -> key x = key y -> x = y.
Proof.
  induction rows as [|a rows IH]; cbn [map distinct In]; [tauto|].
  rewrite andb_true_iff, negb_true_iff. intros [Hn Hd] Hx Hy E.
  assert (Hfresh : forall z, In z rows -> key z <> key a).
  { intros z Hz Ez. assert (mem_id (key a) (map key rows) = true); [|congruence].
    apply mem_id_In. rewrite <- Ez. now apply in_map. }
  destruct Hx as [->|Hx], Hy as [->|Hy]; auto.
  - symmetry in E. now destruct (Hfresh y Hy).
  - now destruct (Hfresh x Hx).
Qed.

Lemma pk_ok_tasks d : pk_ok d = true -> distinct (map Task.id (tasks d)) = true.
Proof. unfold pk_ok. rewrite !andb_true_iff. tauto. Qed.

Lemma filter_negb_none {A} (p : A -> bool) rows :
  filter p (filter (fun x => negb (p x)) rows) = [].
Proof.
  induction rows as [|a rows IH]; cbn [filter]; [reflexivity|].
  destruct (p a) eqn:E; cbn [negb filter]; [exact IH|]. now rewrite E.
Qed.

Lemma delete_user_run user_id s u :
  healthy s ->
  find (fun x => User.id x =? user_id) (users (current s)) = Some u ->
  delete_user user_id s =
    (Return true,
     after_commit
       (with_current (delete_user_rows user_id (current s)) (answered EvQuery s))).
Proof.
  intros H Hu. unfold delete_user. run. cbn [current answered]. rewrite Hu.
  rewrite (find_key_eq User.id user_id _ u Hu). run. reflexivity.
Qed.

(** C7, as the specification states it, fails for identifiers: the pair is
    not unique, so after its owner is deleted it may still resolve, to
    another user.  Users 1 and 2 both registered ("123456789", "telegram");
    after [delete_user 1] the pair resolves to user 2. *)
Lemma deleted_users_identifier_still_resolves :
  In (UserID.mk 1 1 "123456789" "telegram") (user_ids (current shared_identifier_session)) /\
  exists s1 s2,
    delete_user 1 shared_identifier_session = (Return true, s1) /\
    get_user_by_identifier "123456789" "telegram" s1
      = (Return (Some (User.mk 2 "Boris")), s2) /\
    Some (User.mk 2 "Boris") <> None.
Proof.
  split; [vm_compute; left; reflexivity|]. eexists _, _.
  split; [vm_compute; reflexivity|]. split; [vm_compute; reflexivity|]. discriminate.
Qed.

(** C7, amended.  Let [U] be a stored user of a store whose primary keys are
    distinct, on an engine that answers.  [delete_user U] succeeds and
    commits, and afterwards
    - [get_task] and [get_task_details] of every task id that belonged to
      [U] return [None];
    - [get_user_tasks U] returns the empty list;
    - [get_user_by_identifier] of a pair that belonged to [U] never returns
      [U], and returns [None] when no row of another user carries the same
      pair. *)
Theorem delete_user_cascades (U : Z) (u : User.t) (s : Session) :
  healthy s ->
  pk_ok (current s) = true ->
  find (fun x => User.id x =? U) (users (current s)) = Some u ->
  exists s1,
    delete_user U s = (Return true, s1) /\
    committed s1 = current s1 /\
    (forall t,
        In t (tasks (current s)) -> Task.user_id t = U ->
        (exists s2, get_task (Task.id t) s1 = (Return None, s2)) /\
        (exists s2, get_task_details (Task.id t) s1 = (Return None, s2))) /\
    (exists s2, get_user_tasks U s1 = (Return [], s2)) /\
    (forall r,
        In r (user_ids (current s)) -> UserID.user_id r = U ->
        exists o s2,
          get_user_by_identifier (UserID.identifier r) (UserID.identifier_type r) s1
            = (Return o, s2) /\
          (forall v, o = Some v -> User.id v <> U) /\
          ((forall r',
               In r' (user_ids (current s)) ->
               UserID.identifier r' = UserID.identifier r ->
               UserID.identifier_type r' = UserID.identifier_type r ->
               UserID.user_id r' = U) ->
           o = None)).
Proof.
  intros H Hpk Hu. rewrite (delete_user_run U s u H Hu).
  set (s1 := after_commit _).
  assert (H1 : healthy s1) by (subst s1; auto with session).
  assert (Hcur : current s1 = delete_user_rows U (current s)) by reflexivity.
  exists s1. split; [reflexivity|]. split; [reflexivity|].
  assert (Hgone : forall t, In t (tasks (current s)) -> Task.user_id t = U ->
            find (fun x => Task.id x =? Task.id t) (tasks (current s1)) = None).
  { intros t Ht HtU. rewrite Hcur. cbn [delete_user_rows tasks].
    apply find_none_iff. intros x Hx. apply filter_In in Hx. destruct Hx as [Hx HxU].
    apply Z.eqb_neq. intros E.
    rewrite (distinct_key_inj Task.id _ x t (pk_ok_tasks _ Hpk) Hx Ht E) in HxU.
    rewrite HtU, Z.eqb_refl in HxU. discriminate. }
  split; [|split].
  - intros t Ht HtU. split; eexists.
    + unfold get_task. rewrite query_first_answers by auto with session.
      now rewrite (Hgone t Ht HtU).
    + apply get_task_details_missing; auto with session.
  - eexists. unfold get_user_tasks. rewrite query_all_answers by auto with session.
    rewrite Hcur. cbn [delete_user_rows tasks].
    now rewrite (filter_negb_none (fun t => Task.user_id t =? U)).
  - intros r Hr HrU.
    rewrite get_user_by_identifier_run by exact H1. rewrite Hcur.
    cbn [delete_user_rows user_ids users].
    destruct (find _ (filter _ (user_ids (current s)))) as [r'|] eqn:Er.
    + destruct (find_some _ _ Er) as [Hin Hsame].
      apply filter_In in Hin. destruct Hin as [Hin HnU].
      apply negb_true_iff, Z.eqb_neq in HnU.
      apply same_identifier_true in Hsame. destruct Hsame as [Hi Hty].
      eexists _, _. split; [reflexivity|]. split.
      * intros v Hv. rewrite (find_key_eq User.id _ _ v Hv). exact HnU.
      * intros Hown. now destruct (HnU (Hown r' Hin Hi Hty)).
    + eexists _, _. split; [reflexivity|]. split; [discriminate|reflexivity].
Qed.

Lemma delete_user_cascades_witness :
  healthy demo_session2 /\
  pk_ok (current demo_session2) = true /\
  find (fun x => User.id x =? 1) (users (current demo_session2)) = Some (User.mk 1 "Ivan") /\
  exists s1,
    delete_user 1 demo_session2 = (Return true, s1) /\
    committed s1 = current s1 /\
    (forall t,
        In t (tasks (current demo_session2)) -> Task.user_id t = 1 ->
        (exists s2, get_task (Task.id t) s1 = (Return None, s2)) /\
        (exists s2, get_task_details (Task.id t) s1 = (Return None, s2))) /\
    (exists s2, get_user_tasks 1 s1 = (Return [], s2)) /\
    (forall r,
        In r (user_ids (current demo_session2)) -> UserID.user_id r = 1 ->
        exists o s2,
          get_user_by_identifier (UserID.identifier r) (UserID.identifier_type r) s1
            = (Return o, s2) /\
          (forall v, o = Some v -> User.id v <> 1) /\
          ((forall r',
               In r' (user_ids (current demo_session2)) ->
               UserID.identifier r' = UserID.identifier r ->
               UserID.identifier_type r' = UserID.identifier_type r ->
               UserID.user_id r' = 1) ->
           o = None)).
Proof.
  split; [vm_compute; reflexivity|]. split; [vm_compute; reflexivity|].
  split; [vm_compute; reflexivity|].
  apply (delete_user_cascades 1 (User.mk 1 "Ivan") demo_session2); vm_compute; reflexivity.
Defined.

(* ================================================================== *)
(** ** Partial updates: what is written and what is left *)



Lemma update_where_length {A} (key : A -> Z) k (f : A -> A) rows :
  List.length (update_where key k f rows) = List.length rows.
Proof. apply length_map. Qed.









Lemma bind_Return {A B} (m : M A) (f : A -> M B) s a s' :
  m s = (Return a, s') -> bind m f s = f a s'.
Proof. unfold bind. now intros ->. Qed.







(* ================================================================== *)
(** ** Store failures *)

(** The events a run added in front of the log. *)
Lemma new_events_inv (pre evs lg : list event) :
  (pre ++ lg)%list = (evs ++ lg)%list -> evs = pre.
Proof. intros H. symmetry. exact (app_inv_tail lg pre evs H). Qed.

Ltac new_events H :=
  first
    [ apply (new_events_inv [_]) in H
    | apply (new_events_inv [_; _]) in H
    | apply (new_events_inv [_; _; _]) in H
    | apply (new_events_inv [_; _; _; _]) in H
    | apply (new_events_inv [_; _; _; _; _]) in H ].

Ltac unfold_api H :=
  cbv beta iota zeta delta
    [exec returning create_user add_user_identifier create_task create_regular_task
     create_irregular_task update_user update_task_progress update_regular_task
     update_irregular_task delete_user delete_task try_except bind stage stage_ commit
     engine_call query_first reload_id rollback_and_raise rollback raise ret if_str
     if_date truthy_str truthy_date set_task_name negb insert_user insert_user_id
     insert_task insert_regular_task insert_irregular_task faults current committed log
     fst snd] in H.

(** Case analysis on what the engine answers and on what the lookups
    find, until the run is a value. *)
Ltac run_cases H :=
  repeat
    (unfold_api H;
     match type of H with
     | context [match ?fs with [] => _ | _ :: _ => _ end] =>
         is_var fs; destruct fs as [|[?|] ?]
     | context [match find ?p ?l with _ => _ end] => destruct (find p l) eqn:?
     | context [if String.eqb ?a ?b then _ else _] => destruct (String.eqb a b) eqn:?
     end);
  unfold_api H.




(* ================================================================== *)
(** ** The constraints are invariants of the API *)

Lemma mem_id_app k ids1 ids2 : mem_id k (ids1 ++ ids2) = mem_id k ids1 || mem_id k ids2.
Proof. unfold mem_id. apply existsb_app. Qed.

Lemma mem_id_next_id ids : mem_id (next_id ids) ids = false.
Proof.
  destruct (mem_id (next_id ids) ids) eqn:E; [|reflexivity].
  apply mem_id_In, next_id_above in E. lia.
Qed.

Lemma distinct_snoc_next ids : distinct ids = true -> distinct (ids ++ [next_id ids]) = true.
Proof.
  assert (G : forall k l, mem_id k l = false -> distinct l = true ->
                          distinct (l ++ [k]) = true).
  { intros k l. induction l as [|i l IH]; cbn [distinct app]; [reflexivity|].
    cbn [mem_id existsb]. fold (mem_id k l). rewrite orb_false_iff, andb_true_iff.
    intros [Hki Hk] [Hi Hd]. rewrite mem_id_app, IH by assumption.
    cbn [mem_id existsb]. rewrite Z.eqb_sym, Hki.
    apply negb_true_iff in Hi. now rewrite Hi. }
  intros H. apply G; [apply mem_id_next_id|exact H].
Qed.

Lemma distinct_filter {A} (key : A -> Z) (p : A -> bool) rows :
  distinct (map key rows) = true -> distinct (map key (filter p rows)) = true.
Proof.
  induction rows as [|a rows IH]; cbn [map filter distinct]; [reflexivity|].
  rewrite andb_true_iff, negb_true_iff. intros [Hn Hd].
  destruct (p a); cbn [map distinct]; [|auto].
  rewrite IH by assumption. rewrite andb_true_r. apply negb_true_iff.
  destruct (mem_id (key a) (map key (filter p rows))) eqn:E; [|reflexivity].
  apply mem_id_In, in_map_iff in E. destruct E as (x & Hx & Hin).
  apply filter_In in Hin. destruct Hin as [Hin _].
  assert (mem_id (key a) (map key rows) = true); [|congruence].
  apply mem_id_In. rewrite <- Hx. now apply in_map.
Qed.

Lemma map_update_where {A} (col key : A -> Z) k (f : A -> A) rows :
  (forall r, col (f r) = col r) -> map col (update_where key k f rows) = map col rows.
Proof.
  intros H. unfold update_where. rewrite map_map. apply map_ext.
  intros r. now destruct (key r =? k).
Qed.

Lemma map_snoc {A B} (f : A -> B) l x : map f (l ++ [x]) = (map f l ++ [f x])%list.
Proof. now rewrite map_app. Qed.

(** The foreign key of the extension tables, row by row. *)
Lemma fk_ext_ok_spec d :
  fk_ext_ok d = true <->
  (forall r, In r (regular_tasks d) -> In (RegularTask.task_id r) (map Task.id (tasks d))) /\
  (forall r, In r (irregular_tasks d) ->
             In (IrregularTask.task_id r) (map Task.id (tasks d))).
Proof.
  unfold fk_ext_ok. rewrite andb_true_iff, !forallb_forall.
  split; intros [Hr Hi]; split; intros r Hin; apply mem_id_In; auto.
Qed.

Lemma schema_ok_empty : schema_ok empty_store.
Proof. split; reflexivity. Qed.

Ltac split_pk :=
  unfold pk_ok in *; rewrite !andb_true_iff in *;
  cbn [users user_ids tasks regular_tasks irregular_tasks
       set_users set_user_ids set_tasks set_regular_tasks set_irregular_tasks
       on_users on_tasks on_regular_tasks on_irregular_tasks
       insert_user insert_user_id insert_task insert_regular_task insert_irregular_task
       delete_user_rows delete_task_rows snd fst] in *.

Lemma schema_ok_insert_user name d : schema_ok d -> schema_ok (snd (insert_user name d)).
Proof.
  intros [Hpk Hfk]. split; [|exact Hfk]. split_pk.
  rewrite map_snoc. cbn [User.id]. intuition auto using distinct_snoc_next.
Qed.

Lemma schema_ok_insert_user_id u i ty d :
  schema_ok d -> schema_ok (snd (insert_user_id u i ty d)).
Proof.
  intros [Hpk Hfk]. split; [|exact Hfk]. split_pk.
  rewrite map_snoc. cbn [UserID.id]. intuition auto using distinct_snoc_next.
Qed.

Lemma schema_ok_insert_task u name reg d :
  schema_ok d -> schema_ok (snd (insert_task u name reg d)).
Proof.
  intros [Hpk Hfk]. split.
  - split_pk. rewrite map_snoc. cbn [Task.id]. intuition auto using distinct_snoc_next.
  - apply fk_ext_ok_spec. apply fk_ext_ok_spec in Hfk. destruct Hfk as [Hr Hi].
    cbn [insert_task snd tasks regular_tasks irregular_tasks set_tasks].
    rewrite map_snoc. split; intros r Hin; apply in_or_app; left; auto.
Qed.

Lemma schema_ok_insert_regular_task tid w d :
  In tid (map Task.id (tasks d)) ->
  schema_ok d -> schema_ok (snd (insert_regular_task tid w d)).
Proof.
  intros Htid [Hpk Hfk]. split.
  - split_pk. rewrite map_snoc. cbn [RegularTask.id]. intuition auto using distinct_snoc_next.
  - apply fk_ext_ok_spec. apply fk_ext_ok_spec in Hfk. destruct Hfk as [Hr Hi].
    cbn [insert_regular_task snd tasks regular_tasks irregular_tasks set_regular_tasks].
    split; [|exact Hi]. intros r Hin. apply in_app_or in Hin.
    destruct Hin as [Hin|[<-|[]]]; auto.
Qed.

Lemma schema_ok_insert_irregular_task tid od hd d :
  In tid (map Task.id (tasks d)) ->
  schema_ok d -> schema_ok (snd (insert_irregular_task tid od hd d)).
Proof.
  intros Htid [Hpk Hfk]. split.
  - split_pk. rewrite map_snoc. cbn [IrregularTask.id].
    intuition auto using distinct_snoc_next.
  - apply fk_ext_ok_spec. apply fk_ext_ok_spec in Hfk. destruct Hfk as [Hr Hi].
    cbn [insert_irregular_task snd tasks regular_tasks irregular_tasks set_irregular_tasks].
    split; [exact Hr|]. intros r Hin. apply in_app_or in Hin.
    destruct Hin as [Hin|[<-|[]]]; auto.
Qed.

(** The id a new task receives is a task id of the store it was inserted
    in. *)
Lemma insert_task_id_stored u name reg d :
  In (Task.id (fst (insert_task u name reg d)))
    (map Task.id (tasks (snd (insert_task u name reg d)))).
Proof.
  cbn [insert_task fst snd tasks set_tasks Task.id]. rewrite map_snoc.
  apply in_or_app. right. now left.
Qed.

Lemma schema_ok_update_users k f d :
  (forall r, User.id (f r) = User.id r) ->
  schema_ok d -> schema_ok (on_users (update_where User.id k f) d).
Proof.
  intros Hf [Hpk Hfk]. split; [|exact Hfk]. split_pk.
  now rewrite map_update_where.
Qed.

Lemma schema_ok_update_tasks k f d :
  (forall r, Task.id (f r) = Task.id r) ->
  schema_ok d -> schema_ok (on_tasks (update_where Task.id k f) d).
Proof.
  intros Hf [Hpk Hfk]. split.
  - split_pk. now rewrite map_update_where.
  - unfold fk_ext_ok in *.
    cbn [on_tasks set_tasks tasks regular_tasks irregular_tasks].
    now rewrite map_update_where.
Qed.

Lemma forallb_update_where {A} (p : A -> bool) (key : A -> Z) k (f : A -> A) rows :
  (forall r, p (f r) = p r) ->
  forallb p (update_where key k f rows) = forallb p rows.
Proof.
  intros H. unfold update_where. induction rows as [|a rows IH]; cbn [map forallb]; auto.
  rewrite IH. now destruct (key a =? k); rewrite ?H.
Qed.

Lemma schema_ok_update_regular_tasks k f d :
  (forall r, RegularTask.id (f r) = RegularTask.id r) ->
  (forall r, RegularTask.task_id (f r) = RegularTask.task_id r) ->
  schema_ok d -> schema_ok (on_regular_tasks (update_where RegularTask.id k f) d).
Proof.
  intros Hid Htid [Hpk Hfk]. split.
  - split_pk. now rewrite map_update_where.
  - unfold fk_ext_ok in *.
    cbn [on_regular_tasks set_regular_tasks tasks regular_tasks irregular_tasks].
    rewrite forallb_update_where; [exact Hfk|]. intros r. now rewrite Htid.
Qed.

Lemma schema_ok_update_irregular_tasks k f d :
  (forall r, IrregularTask.id (f r) = IrregularTask.id r) ->
  (forall r, IrregularTask.task_id (f r) = IrregularTask.task_id r) ->
  schema_ok d -> schema_ok (on_irregular_tasks (update_where IrregularTask.id k f) d).
Proof.
  intros Hid Htid [Hpk Hfk]. split.
  - split_pk. now rewrite map_update_where.
  - unfold fk_ext_ok in *.
    cbn [on_irregular_tasks set_irregular_tasks tasks regular_tasks irregular_tasks].
    rewrite forallb_update_where; [exact Hfk|]. intros r. now rewrite Htid.
Qed.

Lemma schema_ok_delete_task tid d : schema_ok d -> schema_ok (delete_task_rows tid d).
Proof.
  intros [Hpk Hfk]. split.
  - split_pk. intuition auto using distinct_filter.
  - apply fk_ext_ok_spec. apply fk_ext_ok_spec in Hfk. destruct Hfk as [Hr Hi].
    cbn [delete_task_rows tasks regular_tasks irregular_tasks].
    split; intros r Hin; apply filter_In in Hin; destruct Hin as [Hin Hne];
      apply negb_true_iff, Z.eqb_neq in Hne.
    + apply Hr, in_map_iff in Hin. destruct Hin as (x & Hx & Hin).
      apply in_map_iff. exists x. split; [exact Hx|]. apply filter_In. split; [exact Hin|].
      apply negb_true_iff, Z.eqb_neq. congruence.
    + apply Hi, in_map_iff in Hin. destruct Hin as (x & Hx & Hin).
      apply in_map_iff. exists x. split; [exact Hx|]. apply filter_In. split; [exact Hin|].
      apply negb_true_iff, Z.eqb_neq. congruence.
Qed.

(** A task that survives the deletion of user [uid] is what a surviving
    extension row references. *)
Lemma surviving_task uid d k :
  In k (map Task.id (tasks d)) ->
  mem_id k (task_ids_of_user uid d) = false ->
  In k (map Task.id (filter (fun t => negb (Task.user_id t =? uid)) (tasks d))).
Proof.
  intros Hin Hgone. apply in_map_iff in Hin. destruct Hin as (x & Hx & Hin).
  apply in_map_iff. exists x. split; [exact Hx|]. apply filter_In. split; [exact Hin|].
  apply negb_true_iff. destruct (Task.user_id x =? uid) eqn:E; [|reflexivity].
  assert (mem_id k (task_ids_of_user uid d) = true); [|congruence].
  apply mem_id_In. unfold task_ids_of_user. rewrite <- Hx. apply in_map.
  apply filter_In. now split.
Qed.

Lemma schema_ok_delete_user uid d : schema_ok d -> schema_ok (delete_user_rows uid d).
Proof.
  intros [Hpk Hfk]. split.
  - split_pk. intuition auto using distinct_filter.
  - apply fk_ext_ok_spec. apply fk_ext_ok_spec in Hfk. destruct Hfk as [Hr Hi].
    cbn [delete_user_rows tasks regular_tasks irregular_tasks].
    split; intros r Hin; apply filter_In in Hin; destruct Hin as [Hin Hne];
      apply negb_true_iff in Hne; apply surviving_task; auto.
Qed.

Lemma schema_ok_update_user k name d :
  schema_ok d ->
  schema_ok (on_users (update_where User.id k (fun x => User.mk (User.id x) name)) d).
Proof. now apply schema_ok_update_users. Qed.

Lemma schema_ok_set_progress k p d :
  schema_ok d -> schema_ok (on_tasks (update_where Task.id k (Task.set_progress p)) d).
Proof. now apply schema_ok_update_tasks. Qed.

Lemma schema_ok_set_name k n d :
  schema_ok d -> schema_ok (on_tasks (update_where Task.id k (Task.set_name n)) d).
Proof. now apply schema_ok_update_tasks. Qed.

Lemma schema_ok_set_weekdays k w d :
  schema_ok d ->
  schema_ok (on_regular_tasks (update_where RegularTask.id k (RegularTask.set_weekdays w)) d).
Proof. now apply schema_ok_update_regular_tasks. Qed.

Lemma schema_ok_set_optimal_deadline k x d :
  schema_ok d ->
  schema_ok (on_irregular_tasks
               (update_where IrregularTask.id k (IrregularTask.set_optimal_deadline x)) d).
Proof. now apply schema_ok_update_irregular_tasks. Qed.

Lemma schema_ok_set_hard_deadline k x d :
  schema_ok d ->
  schema_ok (on_irregular_tasks
               (update_where IrregularTask.id k (IrregularTask.set_hard_deadline x)) d).
Proof. now apply schema_ok_update_irregular_tasks. Qed.

Create HintDb schema.
#[local] Hint Resolve schema_ok_insert_user schema_ok_insert_user_id schema_ok_insert_task
  schema_ok_insert_regular_task schema_ok_insert_irregular_task insert_task_id_stored
  schema_ok_update_user schema_ok_set_progress schema_ok_set_name schema_ok_set_weekdays
  schema_ok_set_optimal_deadline schema_ok_set_hard_deadline schema_ok_delete_task
  schema_ok_delete_user : schema.

Ltac unfold_run H :=
  cbv beta iota zeta delta
    [exec returning create_user add_user_identifier create_task create_regular_task
     create_irregular_task update_user update_task_progress update_regular_task
     update_irregular_task delete_user delete_task try_except bind commit
     engine_call query_first reload_id rollback_and_raise rollback raise ret if_str
     if_date truthy_str truthy_date set_task_name negb with_current
     faults current committed log] in H.

(** As [run_cases], with the staged statements kept folded. *)
Ltac run_staged H :=
  repeat
    (unfold_run H;
     match type of H with
     | context [stage_ _ _] => rewrite stage__run in H
     | context [stage _ _] => rewrite stage_run in H
     | context [match ?fs with [] => _ | _ :: _ => _ end] =>
         is_var fs; destruct fs as [|[?|] ?]
     | context [match find ?p ?l with _ => _ end] => destruct (find p l) eqn:?
     | context [if String.eqb ?a ?b then _ else _] => destruct (String.eqb a b) eqn:?
     end);
  unfold_run H.

(** Every mutating operation, whatever the engine does, takes a session
    with nothing pending and a store satisfying the constraints to such a
    session. *)
Lemma exec_preserves_session_ok (o : op) (s : Session) :
  session_ok s -> session_ok (session_after (exec o) s).
Proof.
  intros [Hclean Hok]. unfold session_after.
  destruct (exec o s) as [r s'] eqn:Hrun. cbn [snd].
  destruct s as [cm cu fs lg]. unfold clean in Hclean. cbn [current committed] in *.
  subst cm.
  destruct o as [name|u i ty|u name reg|u name w|u name od hd|u name|t p
                |t [name|] [w|]|t [name|] [od|] [hd|]|u|t].
  all: run_staged Hrun.
  all: apply (f_equal snd) in Hrun; cbn [snd] in Hrun; subst s'.
  all: split; [reflexivity|].
  all: lazymatch goal with
       | |- schema_ok (current (mkSession _ ?d _ _)) => change (schema_ok d)
       end.
  all: auto 8 with schema.
Qed.

Lemma session_ok_engine (s : Session) (fs : list (option string)) (lg : list event) :
  session_ok s -> session_ok (mkSession (committed s) (current s) fs lg).
Proof. intros H. exact H. Qed.

(** Every session the API reaches from an empty database has nothing
    pending and satisfies the primary keys and the extension tables'
    foreign key. *)
Lemma reachable_session_ok (s : Session) : reachable s -> session_ok s.
Proof.
  induction 1 as [fs|o s _ IH|s fs lg _ IH].
  - split; [reflexivity|exact schema_ok_empty].
  - now apply exec_preserves_session_ok.
  - now apply session_ok_engine.
Qed.

(* ================================================================== *)
(** ** The read operations *)

Ltac unfold_reads H :=
  cbv beta iota zeta delta
    [ask answering get_user get_user_by_identifier UserID_user get_task get_task_details
     Task_regular_task Task_irregular_task get_user_tasks query_all query_first
     engine_call bind ret raise faults current committed log] in H.

(** Case analysis on what the engine answers and on what the lookups
    find, for a read. *)
Ltac read_cases H :=
  repeat
    (unfold_reads H;
     match type of H with
     | context [match ?fs with [] => _ | _ :: _ => _ end] =>
         is_var fs; destruct fs as [|[?|] ?]
     | context [match find ?p ?l with _ => _ end] => destruct (find p l) eqn:?
     | context [if Task.is_regular ?t then _ else _] => destruct (Task.is_regular t) eqn:?
     end);
  unfold_reads H.

(** X1.  A read operation, whatever the engine does and whether it returns
    or raises, leaves the durable store and the transaction's view exactly
    as they were, commits nothing and rolls nothing back: every event it
    logs is an answered query or a fault. *)
Theorem reads_change_nothing (q : query) (s s' : Session) (r : outcome answer)
    (evs : list event) :
  ask q s = (r, s') ->
  log s' = (evs ++ log s)%list ->
  committed s' = committed s /\
  current s' = current s /\
  forallb (fun e => is_plain_query e || is_fault e) evs = true.
Proof.
  intros Hrun Hlog. destruct s as [cm cu fs lg].
  destruct q as [u|i ty|t|t|u].
  all: read_cases Hrun.
  all: inversion Hrun; subst r s'; clear Hrun.
  all: cbn [log] in Hlog; new_events Hlog; subst evs.
  all: repeat split; reflexivity.
Qed.

Lemma reads_change_nothing_witness :
  ask (GetUserByIdentifier "123456789" "telegram")
      (new_session (current demo_session) [None; Some "timeout"])
    = (Raise (SQLAlchemyError "timeout"),
       mkSession (current demo_session) (current demo_session) []
         [EvFault "timeout"; EvQuery]) /\
  current demo_session = current demo_session /\
  current demo_session = current demo_session /\
  forallb (fun e => is_plain_query e || is_fault e) [EvFault "timeout"; EvQuery] = true.
Proof.
  split; [vm_compute; reflexivity|].
  assert (H : ask (GetUserByIdentifier "123456789" "telegram")
                (new_session (current demo_session) [None; Some "timeout"])
              = (Raise (SQLAlchemyError "timeout"),
                 mkSession (current demo_session) (current demo_session) []
                   [EvFault "timeout"; EvQuery]))
    by (vm_compute; reflexivity).
  pose proof (reads_change_nothing _ _ _ _ [EvFault "timeout"; EvQuery] H eq_refl) as Hw.
  vm_compute in Hw. vm_compute. exact Hw.
Defined.

(** X2.  The read operations have no handler: whenever the engine raises
    during one of them, the [SQLAlchemyError] itself reaches the caller,
    not an [Exception] with an operation context, the fault is the last
    thing that happened, and no rollback follows. *)
Theorem reads_let_store_errors_through (q : query) (s s' : Session) (r : outcome answer)
    (cause : string) (evs : list event) :
  ask q s = (r, s') ->
  log s' = (evs ++ log s)%list ->
  In (EvFault cause) evs ->
  r = Raise (SQLAlchemyError cause) /\
  exists before,
    evs = EvFault cause :: before /\
    forallb is_plain_query before = true.
Proof.
  intros Hrun Hlog Hin. destruct s as [cm cu fs lg].
  destruct q as [u|i ty|t|t|u].
  all: read_cases Hrun.
  all: inversion Hrun; subst r s'; clear Hrun.
  all: cbn [log] in Hlog; new_events Hlog; subst evs.
  all: cbn [In] in Hin; intuition (try discriminate).
  all: match goal with H : EvFault _ = EvFault _ |- _ => injection H as <- end.
  all: try reflexivity.
  all: eexists; split; reflexivity.
Qed.

Lemma reads_let_store_errors_through_witness :
  ask (GetTaskDetails 1) (new_session (current demo_session) [None; Some "timeout"])
    = (Raise (SQLAlchemyError "timeout"),
       mkSession (current demo_session) (current demo_session) []
         [EvFault "timeout"; EvQuery]) /\
  In (EvFault "timeout") [EvFault "timeout"; EvQuery] /\
  Raise (SQLAlchemyError "timeout") = Raise (A := answer) (SQLAlchemyError "timeout") /\
  exists before,
    [EvFault "timeout"; EvQuery] = EvFault "timeout" :: before /\
    forallb is_plain_query before = true.
Proof.
  split; [vm_compute; reflexivity|]. split; [left; reflexivity|].
  apply (reads_let_store_errors_through
           (GetTaskDetails 1)
           (new_session (current demo_session) [None; Some "timeout"])
           (mkSession (current demo_session) (current demo_session) []
              [EvFault "timeout"; EvQuery])
           (Raise (SQLAlchemyError "timeout"))
           "timeout" [EvFault "timeout"; EvQuery]).
  - vm_compute; reflexivity.
  - reflexivity.
  - left; reflexivity.
Defined.

(* ================================================================== *)
(** ** Creating tasks, then reading them *)

(** The task row a create inserts. *)
Lemma find_created_task u name reg d :
  find (fun x => Task.id x =? next_id (map Task.id (tasks d)))
    (tasks (snd (insert_task u name reg d)))
  = Some (Task.mk (next_id (map Task.id (tasks d))) u name 0 reg).
Proof.
  cbn [insert_task snd tasks set_tasks]. rewrite find_app, find_next_id.
  cbn [find Task.id]. now rewrite Z.eqb_refl.
Qed.



(** X4.  [create_task] inserts the base row only: on an engine that answers
    and a store satisfying the extension tables' foreign key,
    [get_task_details] of the returned id holds the five base columns and
    neither weekdays nor deadlines, whatever [is_regular] is. *)
Theorem create_task_then_details_has_no_extension
    (U : Z) (name : string) (is_regular : bool) (s : Session) :
  healthy s ->
  fk_ext_ok (current s) = true ->
  exists new_id s1 s2,
    create_task U name is_regular s = (Return new_id, s1) /\
    committed s1 = current s1 /\
    get_task_details new_id s1
      = (Return
           (Some
              [("id", VInt new_id); ("name", VStr name); ("progress", VInt 0);
               ("is_regular", VBool is_regular); ("user_id", VInt U)]),
         s2).
Proof.
  intros H Hfk.
  rewrite (create_task_run U name is_regular s (healthy_answers _ H)
             (healthy_answers _ (healthy_after_commit _ H))).
  eexists _, _, _. split; [reflexivity|]. split; [reflexivity|].
  erewrite get_task_details_run;
    [|auto using healthy_base_committed
     |cbn [answered current after_commit with_current base_committed]; apply find_created_task].
  cbn [answered current after_commit with_current base_committed insert_task snd tasks set_tasks
       regular_tasks irregular_tasks
       Task.id Task.name Task.progress Task.is_regular Task.user_id].
  cbv zeta. destruct (fk_ext_fresh _ Hfk) as [-> ->]. now destruct is_regular.
Qed.

Lemma create_task_then_details_has_no_extension_witness :
  healthy demo_session /\
  fk_ext_ok (current demo_session) = true /\
  exists new_id s1 s2,
    create_task 1 "Shopping" true demo_session = (Return new_id, s1) /\
    committed s1 = current s1 /\
    get_task_details new_id s1
      = (Return
           (Some
              [("id", VInt new_id); ("name", VStr "Shopping"); ("progress", VInt 0);
               ("is_regular", VBool true); ("user_id", VInt 1)]),
         s2).
Proof.
  split; [vm_compute; reflexivity|]. split; [vm_compute; reflexivity|].
  apply (create_task_then_details_has_no_extension 1 "Shopping" true demo_session);
    vm_compute; reflexivity.
Defined.




(* ================================================================== *)
(** ** Deleting and updating: what goes, what stays *)

Lemma find_filter_other {A} (p q : A -> bool) rows :
  (forall x, p x = true -> q x = true) ->
  find p (filter q rows) = find p rows.
Proof.
  intros H. induction rows as [|a rows IH]; cbn [filter find]; [reflexivity|].
  destruct (p a) eqn:Ep.
  - rewrite (H a Ep). cbn [find]. now rewrite Ep.
  - destruct (q a); cbn [find]; rewrite ?Ep; exact IH.
Qed.

Lemma find_filter_keep {A} (p q : A -> bool) rows x :
  find p rows = Some x -> q x = true -> find p (filter q rows) = Some x.
Proof.
  induction rows as [|a rows IH]; cbn [filter find]; [discriminate|].
  destruct (p a) eqn:Ep.
  - intros [= ->] Hq. rewrite Hq. cbn [find]. now rewrite Ep.
  - intros Hf Hq. destruct (q a); cbn [find]; rewrite ?Ep; auto.
Qed.

Lemma find_filter_none {A} (p q : A -> bool) rows :
  (forall x, p x = true -> q x = false) -> find p (filter q rows) = None.
Proof.
  intros H. apply find_none_iff. intros x Hx. apply filter_In in Hx.
  destruct Hx as [_ Hq]. destruct (p x) eqn:Ep; [|reflexivity].
  rewrite (H x Ep) in Hq. discriminate.
Qed.

Lemma find_update_where_other {A} (key : A -> Z) k k' (f : A -> A) rows :
  (forall r, key (f r) = key r) ->
  k' <> k ->
  find (fun r => key r =? k') (update_where key k f rows) = find (fun r => key r =? k') rows.
Proof.
  intros Hk Hne. unfold update_where.
  induction rows as [|a rows IH]; cbn [map find]; [reflexivity|].
  destruct (key a =? k) eqn:E.
  - rewrite Hk. apply Z.eqb_eq in E. rewrite E.
    destruct (k =? k') eqn:E'; [apply Z.eqb_eq in E'; congruence|exact IH].
  - now rewrite IH.
Qed.

(** What [get_task] returns on an engine that answers. *)
Lemma get_task_value task_id s :
  answers s ->
  fst (get_task task_id s)
  = Return (find (fun x => Task.id x =? task_id) (tasks (current s))).
Proof. intros H. unfold get_task. now rewrite query_first_answers. Qed.

Lemma get_user_value user_id s :
  answers s ->
  fst (get_user user_id s)
  = Return (find (fun x => User.id x =? user_id) (users (current s))).
Proof. intros H. unfold get_user. now rewrite query_first_answers. Qed.

Lemma get_user_tasks_value user_id s :
  answers s ->
  fst (get_user_tasks user_id s)
  = Return (filter (fun t => Task.user_id t =? user_id) (tasks (current s))).
Proof. intros H. unfold get_user_tasks. now rewrite query_all_answers. Qed.

(** The details of a task depend on the three rows found under its id. *)
Lemma get_task_details_ext task_id s s' :
  healthy s -> healthy s' ->
  find (fun x => Task.id x =? task_id) (tasks (current s'))
    = find (fun x => Task.id x =? task_id) (tasks (current s)) ->
  find (fun r => RegularTask.task_id r =? task_id) (regular_tasks (current s'))
    = find (fun r => RegularTask.task_id r =? task_id) (regular_tasks (current s)) ->
  find (fun r => IrregularTask.task_id r =? task_id) (irregular_tasks (current s'))
    = find (fun r => IrregularTask.task_id r =? task_id) (irregular_tasks (current s)) ->
  fst (get_task_details task_id s') = fst (get_task_details task_id s).
Proof.
  intros H H' Ht Hr Hi.
  destruct (find (fun x => Task.id x =? task_id) (tasks (current s))) as [t|] eqn:E.
  - rewrite (get_task_details_run task_id s t H E).
    rewrite (get_task_details_run task_id s' t H' Ht).
    rewrite (find_key_eq Task.id task_id _ t E). cbn [fst]. now rewrite Hr, Hi.
  - rewrite (get_task_details_missing task_id s (healthy_answers _ H) E).
    rewrite (get_task_details_missing task_id s' (healthy_answers _ H') Ht).
    reflexivity.
Qed.

Lemma delete_task_run task_id s t :
  healthy s ->
  find (fun x => Task.id x =? task_id) (tasks (current s)) = Some t ->
  delete_task task_id s =
    (Return true,
     after_commit
       (with_current (delete_task_rows task_id (current s)) (answered EvQuery s))).
Proof.
  intros H Ht. unfold delete_task. run. cbn [current answered]. rewrite Ht.
  rewrite (find_key_eq Task.id task_id _ t Ht). run. reflexivity.
Qed.

Lemma neq_key_filter (k k' : Z) : k' <> k -> forall a : Z, (a =? k') = true -> negb (a =? k) = true.
Proof.
  intros Hne a E. apply Z.eqb_eq in E. subst a. apply negb_true_iff, Z.eqb_neq. exact Hne.
Qed.

(** X6.  For a stored task [T], on an engine that answers, [delete_task T]
    succeeds and commits; afterwards [get_task T] and [get_task_details T]
    return [None], no extension row references [T], a second
    [delete_task T] raises "not found" and changes nothing; users and
    identifiers are untouched, and for every other id [get_task] and
    [get_task_details] return what they returned before. *)
Theorem delete_task_cascades_and_frames (T : Z) (t : Task.t) (s : Session) :
  healthy s ->
  find (fun x => Task.id x =? T) (tasks (current s)) = Some t ->
  exists s1,
    delete_task T s = (Return true, s1) /\
    committed s1 = current s1 /\
    fst (get_task T s1) = Return None /\
    fst (get_task_details T s1) = Return None /\
    find (fun r => RegularTask.task_id r =? T) (regular_tasks (current s1)) = None /\
    find (fun r => IrregularTask.task_id r =? T) (irregular_tasks (current s1)) = None /\
    raises_not_found (delete_task T) (task_not_found T) s1 /\
    users (current s1) = users (current s) /\
    user_ids (current s1) = user_ids (current s) /\
    (forall T',
        T' <> T ->
        fst (get_task T' s1) = fst (get_task T' s) /\
        fst (get_task_details T' s1) = fst (get_task_details T' s)).
Proof.
  intros H Ht. rewrite (delete_task_run T s t H Ht).
  set (s1 := after_commit _).
  assert (H1 : healthy s1) by (subst s1; auto with session).
  assert (Hcur : current s1 = delete_task_rows T (current s)) by reflexivity.
  assert (Hgone : find (fun x => Task.id x =? T) (tasks (current s1)) = None).
  { rewrite Hcur. cbn [delete_task_rows tasks]. apply find_filter_none.
    intros x E. now rewrite E. }
  exists s1. split; [reflexivity|]. split; [reflexivity|].
  split; [rewrite get_task_value by auto with session; now rewrite Hgone|].
  split; [now rewrite get_task_details_missing by auto with session|].
  split; [rewrite Hcur; cbn [delete_task_rows regular_tasks]; apply find_filter_none;
          intros x E; now rewrite E|].
  split; [rewrite Hcur; cbn [delete_task_rows irregular_tasks]; apply find_filter_none;
          intros x E; now rewrite E|].
  split; [exact (lookup_miss tasks _ _ err_delete_task _ s1 eq_refl Hgone)|].
  split; [reflexivity|]. split; [reflexivity|].
  intros T' Hne.
  assert (Ht' : find (fun x => Task.id x =? T') (tasks (current s1))
                = find (fun x => Task.id x =? T') (tasks (current s))).
  { rewrite Hcur. cbn [delete_task_rows tasks]. apply find_filter_other.
    intros x. apply neq_key_filter, Hne. }
  split.
  - rewrite !get_task_value by auto with session. now rewrite Ht'.
  - apply get_task_details_ext; auto; rewrite Hcur;
      cbn [delete_task_rows regular_tasks irregular_tasks]; apply find_filter_other;
      intros x; apply neq_key_filter, Hne.
Qed.

Lemma delete_task_cascades_and_frames_witness :
  healthy demo_session2 /\
  find (fun x => Task.id x =? 1) (tasks (current demo_session2))
    = Some (Task.mk 1 1 "Exercise" 0 true) /\
  exists s1,
    delete_task 1 demo_session2 = (Return true, s1) /\
    committed s1 = current s1 /\
    fst (get_task 1 s1) = Return None /\
    fst (get_task_details 1 s1) = Return None /\
    find (fun r => RegularTask.task_id r =? 1) (regular_tasks (current s1)) = None /\
    find (fun r => IrregularTask.task_id r =? 1) (irregular_tasks (current s1)) = None /\
    raises_not_found (delete_task 1) (task_not_found 1) s1 /\
    users (current s1) = users (current demo_session2) /\
    user_ids (current s1) = user_ids (current demo_session2) /\
    (forall T',
        T' <> 1 ->
        fst (get_task T' s1) = fst (get_task T' demo_session2) /\
        fst (get_task_details T' s1) = fst (get_task_details T' demo_session2)).
Proof.
  split; [vm_compute; reflexivity|]. split; [vm_compute; reflexivity|].
  apply (delete_task_cascades_and_frames 1 (Task.mk 1 1 "Exercise" 0 true) demo_session2);
    vm_compute; reflexivity.
Defined.

(** Under distinct task ids, the task found under an id is the only one
    that could put the id among a user's. *)
Lemma not_among_user_tasks d uid task_id t :
  pk_ok d = true ->
  find (fun x => Task.id x =? task_id) (tasks d) = Some t ->
  Task.user_id t <> uid ->
  mem_id task_id (task_ids_of_user uid d) = false.
Proof.
  intros Hpk Ht Hne. destruct (mem_id task_id (task_ids_of_user uid d)) eqn:E; [|reflexivity].
  apply mem_id_In in E. unfold task_ids_of_user in E. apply in_map_iff in E.
  destruct E as (x & Hx & Hin). apply filter_In in Hin. destruct Hin as [Hin Hu].
  apply Z.eqb_eq in Hu. destruct (find_some _ _ Ht) as [Htin Hid]. apply Z.eqb_eq in Hid.
  assert (x = t) by (apply (distinct_key_inj Task.id (tasks d)); auto using pk_ok_tasks;
                     congruence).
  congruence.
Qed.

(** X7.  For a stored user [U] of a store with distinct primary keys, on an
    engine that answers, [delete_user U] removes [U] and nothing of anyone
    else: afterwards [get_user U] returns [None] and a second
    [delete_user U] raises "not found"; for every other user [get_user] and
    [get_user_tasks] return what they returned before; every task of
    another user keeps its [get_task] and [get_task_details]; and every
    identifier of another user is still stored. *)
Theorem delete_user_leaves_other_users (U : Z) (u : User.t) (s : Session) :
  healthy s ->
  pk_ok (current s) = true ->
  find (fun x => User.id x =? U) (users (current s)) = Some u ->
  exists s1,
    delete_user U s = (Return true, s1) /\
    fst (get_user U s1) = Return None /\
    raises_not_found (delete_user U) (user_not_found U) s1 /\
    (forall V,
        V <> U ->
        fst (get_user V s1) = fst (get_user V s) /\
        fst (get_user_tasks V s1) = fst (get_user_tasks V s)) /\
    (forall T t,
        find (fun x => Task.id x =? T) (tasks (current s)) = Some t ->
        Task.user_id t <> U ->
        fst (get_task T s1) = fst (get_task T s) /\
        fst (get_task_details T s1) = fst (get_task_details T s)) /\
    (forall r,
        In r (user_ids (current s)) -> UserID.user_id r <> U ->
        In r (user_ids (current s1))).
Proof.
  intros H Hpk Hu. rewrite (delete_user_run U s u H Hu).
  set (s1 := after_commit _).
  assert (H1 : healthy s1) by (subst s1; auto with session).
  assert (Hcur : current s1 = delete_user_rows U (current s)) by reflexivity.
  assert (Hgone : find (fun x => User.id x =? U) (users (current s1)) = None).
  { rewrite Hcur. cbn [delete_user_rows users]. apply find_filter_none.
    intros x E. now rewrite E. }
  exists s1. split; [reflexivity|].
  split; [rewrite get_user_value by auto with session; now rewrite Hgone|].
  split; [exact (lookup_miss users _ _ err_delete_user _ s1 eq_refl Hgone)|].
  split; [|split].
  - intros V Hne. split.
    + rewrite !get_user_value by auto with session. rewrite Hcur.
      cbn [delete_user_rows users]. rewrite find_filter_other; [reflexivity|].
      intros x. apply neq_key_filter, Hne.
    + rewrite !get_user_tasks_value by auto with session. rewrite Hcur.
      cbn [delete_user_rows tasks]. f_equal.
      induction (tasks (current s)) as [|a l IH]; cbn [filter]; [reflexivity|].
      destruct (Task.user_id a =? U) eqn:Ea; cbn [negb filter].
      * apply Z.eqb_eq in Ea. rewrite Ea.
        destruct (U =? V) eqn:E; [apply Z.eqb_eq in E; congruence|exact IH].
      * destruct (Task.user_id a =? V); [now rewrite IH|exact IH].
  - intros T t Ht Hne.
    pose proof (not_among_user_tasks _ U T t Hpk Ht Hne) as Hkeep.
    assert (Ht' : find (fun x => Task.id x =? T) (tasks (current s1)) = Some t).
    { rewrite Hcur. cbn [delete_user_rows tasks]. apply find_filter_keep; [exact Ht|].
      apply negb_true_iff, Z.eqb_neq, Hne. }
    split.
    + rewrite !get_task_value by auto with session. now rewrite Ht', Ht.
    + apply get_task_details_ext; auto; [congruence| |]; rewrite Hcur;
        cbn [delete_user_rows regular_tasks irregular_tasks]; apply find_filter_other;
        intros x E; apply Z.eqb_eq in E; rewrite E, Hkeep; reflexivity.
  - intros r Hin Hne. rewrite Hcur. cbn [delete_user_rows user_ids].
    apply filter_In. split; [exact Hin|]. apply negb_true_iff, Z.eqb_neq, Hne.
Qed.

Lemma delete_user_leaves_other_users_witness :
  healthy shared_identifier_session /\
  pk_ok (current shared_identifier_session) = true /\
  find (fun x => User.id x =? 1) (users (current shared_identifier_session))
    = Some (User.mk 1 "Anna") /\
  exists s1,
    delete_user 1 shared_identifier_session = (Return true, s1) /\
    fst (get_user 1 s1) = Return None /\
    fst (get_user 2 s1) = fst (get_user 2 shared_identifier_session) /\
    fst (get_user_tasks 2 s1) = fst (get_user_tasks 2 shared_identifier_session).
Proof.
  split; [vm_compute; reflexivity|]. split; [vm_compute; reflexivity|].
  split; [vm_compute; reflexivity|].
  destruct (delete_user_leaves_other_users 1 (User.mk 1 "Anna") shared_identifier_session)
    as (s1 & Hrun & Hnone & _ & Hothers & _); try (vm_compute; reflexivity).
  exists s1. split; [exact Hrun|]. split; [exact Hnone|].
  apply (Hothers 2). discriminate.
Defined.




(** X9.  For a stored task [T], on an engine that answers,
    [update_task_progress T p] touches that task only: the four other
    tables are as before, every other task id gives the same [get_task]
    and [get_task_details], and the details of [T] show the new progress
    with its extension columns as before. *)
Theorem update_task_progress_frame (T p : Z) (t : Task.t) (s : Session) :
  healthy s ->
  find (fun x => Task.id x =? T) (tasks (current s)) = Some t ->
  exists s1,
    update_task_progress T p s = (Return true, s1) /\
    users (current s1) = users (current s) /\
    user_ids (current s1) = user_ids (current s) /\
    regular_tasks (current s1) = regular_tasks (current s) /\
    irregular_tasks (current s1) = irregular_tasks (current s) /\
    List.length (tasks (current s1)) = List.length (tasks (current s)) /\
    (forall T',
        T' <> T ->
        fst (get_task T' s1) = fst (get_task T' s) /\
        fst (get_task_details T' s1) = fst (get_task_details T' s)) /\
    (forall d,
        fst (get_task_details T s) = Return (Some d) ->
        fst (get_task_details T s1) = Return (Some (dict_set "progress" (VInt p) d))).
Proof.
  intros H Ht. rewrite (update_task_progress_run T p s t H Ht).
  pose proof (find_key_eq Task.id T _ t Ht) as Hid.
  set (s1 := after_commit _).
  assert (H1 : healthy s1) by (subst s1; auto with session).
  assert (Hcur : current s1
                 = on_tasks (update_where Task.id (Task.id t) (Task.set_progress p))
                     (current s)) by reflexivity.
  exists s1. split; [reflexivity|]. rewrite Hcur.
  cbn [on_tasks set_tasks users user_ids tasks regular_tasks irregular_tasks].
  repeat split.
  - apply update_where_length.
  - rewrite !get_task_value by auto with session. rewrite Hcur.
    cbn [on_tasks set_tasks tasks]. rewrite Hid. now rewrite find_update_where_other.
  - apply get_task_details_ext; auto; rewrite Hcur;
      cbn [on_tasks set_tasks tasks regular_tasks irregular_tasks]; [|reflexivity..].
    rewrite Hid. now rewrite find_update_where_other.
  - intros d. rewrite (get_task_details_run T s t H Ht).
    erewrite (get_task_details_run T s1 (Task.set_progress p t) H1).
    2:{ rewrite Hcur. cbn [on_tasks set_tasks tasks]. rewrite Hid.
        now apply find_update_where. }
    rewrite Hcur. cbn [on_tasks set_tasks regular_tasks irregular_tasks fst].
    cbv zeta. cbn [Task.set_progress Task.id Task.name Task.progress Task.is_regular
                   Task.user_id].
    destruct (Task.is_regular t);
      [destruct (find _ (regular_tasks (current s)))
      |destruct (find _ (irregular_tasks (current s)))];
      intros [= <-]; reflexivity.
Qed.

Lemma update_task_progress_frame_witness :
  healthy demo_session2 /\
  find (fun x => Task.id x =? 2) (tasks (current demo_session2))
    = Some (Task.mk 2 1 "Report" 0 false) /\
  exists s1,
    update_task_progress 2 120 demo_session2 = (Return true, s1) /\
    fst (get_task_details 1 s1) = fst (get_task_details 1 demo_session2) /\
    fst (get_task_details 2 s1)
      = Return
          (Some
             [("id", VInt 2); ("name", VStr "Report"); ("progress", VInt 120);
              ("is_regular", VBool false); ("user_id", VInt 1);
              ("optimal_deadline", VDate (mkDate 2025 5 10));
              ("hard_deadline", VDate (mkDate 2025 5 15))]).
Proof.
  split; [vm_compute; reflexivity|]. split; [vm_compute; reflexivity|].
  destruct (update_task_progress_frame 2 120 (Task.mk 2 1 "Report" 0 false) demo_session2)
    as (s1 & Hrun & _ & _ & _ & _ & _ & Hothers & Hsame); try (vm_compute; reflexivity).
  exists s1. split; [exact Hrun|]. split.
  - apply (Hothers 1). discriminate.
  - apply (Hsame
             [("id", VInt 2); ("name", VStr "Report"); ("progress", VInt 0);
              ("is_regular", VBool false); ("user_id", VInt 1);
              ("optimal_deadline", VDate (mkDate 2025 5 10));
              ("hard_deadline", VDate (mkDate 2025 5 15))]).
    vm_compute; reflexivity.
Defined.

(* ================================================================== *)
(** ** Updating a task of the other kind *)

(** X10.  A task made by [create_irregular_task] is not a regular task and
    conversely: on an engine that answers and a store satisfying the
    extension tables' foreign key, [update_regular_task] on the id returned
    by [create_irregular_task] raises the "regular task not found"
    exception and changes nothing, and [update_irregular_task] on the id
    returned by [create_regular_task] raises the "irregular task not found"
    exception and changes nothing. *)
Theorem update_of_the_other_kind_is_not_found (U : Z) (name : string) (s : Session) :
  healthy s ->
  fk_ext_ok (current s) = true ->
  (forall od hd new_name weekdays,
      exists new_id s1,
        create_irregular_task U name od hd s = (Return new_id, s1) /\
        raises_not_found (update_regular_task new_id new_name weekdays)
          (regular_task_not_found new_id) s1) /\
  (forall weekdays new_name od hd,
      exists new_id s1,
        create_regular_task U name weekdays s = (Return new_id, s1) /\
        raises_not_found (update_irregular_task new_id new_name od hd)
          (irregular_task_not_found new_id) s1).
Proof.
  intros H Hfk. destruct (fk_ext_fresh _ Hfk) as [Hr Hi]. split.
  - intros od hd new_name w. rewrite (create_irregular_task_run U name od hd s H).
    eexists _, _. split; [reflexivity|].
    apply (lookup_miss regular_tasks _ _ err_update_regular_task); [reflexivity|].
    exact Hr.
  - intros w new_name od hd. rewrite (create_regular_task_run U name w s H).
    eexists _, _. split; [reflexivity|].
    apply (lookup_miss irregular_tasks _ _ err_update_irregular_task); [reflexivity|].
    exact Hi.
Qed.

Lemma update_of_the_other_kind_is_not_found_witness :
  healthy demo_session /\
  fk_ext_ok (current demo_session) = true /\
  exists new_id s1,
    create_irregular_task 1 "Report" (mkDate 2025 5 10) (mkDate 2025 5 15) demo_session
      = (Return new_id, s1) /\
    raises_not_found (update_regular_task new_id (Some "Weekly report") (Some "1"))
      (regular_task_not_found new_id) s1.
Proof.
  split; [vm_compute; reflexivity|]. split; [vm_compute; reflexivity|].
  destruct (update_of_the_other_kind_is_not_found 1 "Report" demo_session) as [Hirr _];
    try (vm_compute; reflexivity).
  apply Hirr.
Defined.

(* ================================================================== *)
(** ** Identifiers: other pairs and unknown owners *)

Lemma get_user_by_identifier_value identifier identifier_type s :
  healthy s ->
  fst (get_user_by_identifier identifier identifier_type s)
  = Return
      (match find (same_identifier identifier identifier_type) (user_ids (current s)) with
       | Some r => find (fun u => User.id u =? UserID.user_id r) (users (current s))
       | None => None
       end).
Proof.
  intros H. rewrite get_user_by_identifier_run by exact H.
  now destruct (find _ (user_ids (current s))).
Qed.

(** The INSERT refused. *)
Lemma add_user_identifier_refused user_id identifier identifier_type s cause fs :
  faults s = Some cause :: fs ->
  add_user_identifier user_id identifier identifier_type s =
    (Raise (Exception (err_add_user_identifier ++ cause)),
     mkSession (committed s) (committed s) fs (EvRollback :: EvFault cause :: log s)).
Proof.
  intros E. unfold add_user_identifier, try_except, bind. rewrite stage_run.
  erewrite commit_fault by (cbn; exact E). reflexivity.
Qed.

(** X11.  On the engine as models.py configures it, for an identifier and a
    type without NUL characters:
    - for a stored user [U], an identifier of at most 100 characters and a
      type of at most 50, [add_user_identifier U identifier
      identifier_type] succeeds, the row is stored under the returned id,
      and for every pair that differs from (identifier, identifier_type) in
      the identifier or in the type, [get_user_by_identifier] returns what
      it returned before;
    - for an id [U] that no stored user has, the engine refuses the row
      ([user_ids.user_id] references [users.id]): the call raises an
      [Exception] and a session with nothing pending is left as it was. *)
Theorem add_user_identifier_other_pairs_and_unknown_owner
    (refusal : string) (U : Z) (identifier identifier_type : string) (s : Session) :
  faults s = engine_add_user_identifier refusal (current s) U identifier identifier_type ->
  NUL_free identifier = true ->
  NUL_free identifier_type = true ->
  (mem_id U (map User.id (users (current s))) = true ->
   fits_String 100 identifier = true ->
   fits_String 50 identifier_type = true ->
   exists k s1,
     add_user_identifier U identifier identifier_type s = (Return k, s1) /\
     In (UserID.mk k U identifier identifier_type) (user_ids (current s1)) /\
     (forall i' ty',
         i' <> identifier \/ ty' <> identifier_type ->
         fst (get_user_by_identifier i' ty' s1) = fst (get_user_by_identifier i' ty' s))) /\
  (mem_id U (map User.id (users (current s))) = false ->
   clean s ->
   exists s1,
     add_user_identifier U identifier identifier_type s
       = (Raise (Exception (err_add_user_identifier ++ refusal)), s1) /\
     current s1 = current s /\ committed s1 = committed s).
Proof.
  intros E _ _. unfold engine_add_user_identifier in E. split.
  - intros HU Hi Hty.
    rewrite HU, (fits_String_not_refused _ _ Hi), (fits_String_not_refused _ _ Hty) in E.
    pose proof (healthy_schedule _ _ E eq_refl) as H.
    rewrite (add_user_identifier_run U identifier identifier_type s H).
    eexists _, _. split; [reflexivity|].
    cbn [answered current after_commit with_current insert_user_id snd user_ids set_user_ids].
    split; [apply in_or_app; right; now left|].
    intros i' ty' Hne. rewrite !get_user_by_identifier_value by auto with session.
    cbn [answered current after_commit with_current insert_user_id snd user_ids users
         set_user_ids].
    rewrite find_app.
    destruct (find (same_identifier i' ty') (user_ids (current s))); [reflexivity|].
    cbn [find]. unfold same_identifier at 1.
    cbn [UserID.identifier UserID.identifier_type].
    destruct (String.eqb identifier i') eqn:Ei;
      destruct (String.eqb identifier_type ty') eqn:Ety; cbn [andb]; try reflexivity.
    apply String.eqb_eq in Ei, Ety. subst. now destruct Hne.
  - intros HU Hclean. rewrite HU in E. cbn [negb orb flush_answer] in E.
    rewrite (add_user_identifier_refused U identifier identifier_type s refusal _ E).
    eexists. split; [reflexivity|]. cbn [current committed]. split; [|reflexivity].
    symmetry. exact Hclean.
Qed.

Lemma add_user_identifier_other_pairs_and_unknown_owner_witness :
  faults (new_session (current demo_session)
            (engine_add_user_identifier "foreign key" (current demo_session) 1
               "555" "discord"))
    = engine_add_user_identifier "foreign key" (current demo_session) 1 "555" "discord" /\
  mem_id 1 (map User.id (users (current demo_session))) = true /\
  exists k s1,
    add_user_identifier 1 "555" "discord"
      (new_session (current demo_session)
         (engine_add_user_identifier "foreign key" (current demo_session) 1
            "555" "discord"))
      = (Return k, s1) /\
    In (UserID.mk k 1 "555" "discord") (user_ids (current s1)) /\
    fst (get_user_by_identifier "123456789" "telegram" s1)
      = fst (get_user_by_identifier "123456789" "telegram"
               (new_session (current demo_session)
                  (engine_add_user_identifier "foreign key" (current demo_session) 1
                     "555" "discord"))).
Proof.
  split; [reflexivity|]. split; [vm_compute; reflexivity|].
  destruct (proj1 (add_user_identifier_other_pairs_and_unknown_owner
                     "foreign key" 1 "555" "discord"
                     (new_session (current demo_session)
                        (engine_add_user_identifier "foreign key" (current demo_session) 1
                           "555" "discord"))
                     eq_refl eq_refl eq_refl))
    as (k & s1 & Hrun & Hin & Hothers);
    [vm_compute; reflexivity|vm_compute; reflexivity|vm_compute; reflexivity|].
  exists k, s1. split; [exact Hrun|]. split; [exact Hin|].
  apply Hothers. left. discriminate.
Defined.

(* ================================================================== *)
(** ** Constraints kept, exceptions raised *)

(** X12.  The keys are invariants of the durable store.  Every mutating
    operation, under every behaviour of the engine and whether it returns
    or raises, takes a session with nothing pending whose store has
    distinct primary keys and extension rows that reference stored tasks to
    a session whose durable store has them too.  Hence the durable store of
    every session the API reaches from an empty database has them. *)
Theorem api_keeps_the_keys_of_the_durable_store :
  (forall o s r s',
      session_ok s ->
      exec o s = (r, s') ->
      pk_ok (committed s') = true /\ fk_ext_ok (committed s') = true) /\
  (forall s,
      reachable s ->
      pk_ok (committed s) = true /\ fk_ext_ok (committed s) = true).
Proof.
  split.
  - intros o s r s' Hok Hrun.
    destruct (exec_preserves_session_ok o s Hok) as (Hc & Hpk & Hfk).
    unfold session_after in Hc, Hpk, Hfk. rewrite Hrun in Hc, Hpk, Hfk.
    cbn [snd] in Hc, Hpk, Hfk. unfold clean in Hc. rewrite <- Hc. auto.
  - intros s Hs. destruct (reachable_session_ok s Hs) as (Hc & Hpk & Hfk).
    unfold clean in Hc. rewrite <- Hc. auto.
Qed.

Lemma api_keeps_the_keys_of_the_durable_store_witness :
  session_ok (new_session (current demo_session2) [None; Some "deadlock"]) /\
  pk_ok (committed
           (session_after (exec (DeleteUser 1))
              (new_session (current demo_session2) [None; Some "deadlock"]))) = true /\
  fk_ext_ok (committed
               (session_after (exec (DeleteUser 1))
                  (new_session (current demo_session2) [None; Some "deadlock"]))) = true.
Proof.
  assert (H : session_ok (new_session (current demo_session2) [None; Some "deadlock"])).
  { split; [reflexivity|]. split; vm_compute; reflexivity. }
  split; [exact H|].
  destruct api_keeps_the_keys_of_the_durable_store as [Hstep _].
  apply (Hstep (DeleteUser 1) (new_session (current demo_session2) [None; Some "deadlock"])
           (fst (exec (DeleteUser 1)
                   (new_session (current demo_session2) [None; Some "deadlock"])))).
  - exact H.
  - unfold session_after. now destruct (exec _ _).
Defined.





(** X14.  Where an extension row has no base task (a store that breaks the
    foreign key), [update_regular_task] and [update_irregular_task] called
    with a non-empty name raise [AttributeError] on an engine that answers:
    nothing is written, nothing is committed and nothing is rolled back,
    the other arguments being ignored. *)
Theorem rename_without_base_task_raises_AttributeError
    (task_id : Z) (name : string) (s : Session) :
  healthy s ->
  name <> "" ->
  find (fun x => Task.id x =? task_id) (tasks (current s)) = None ->
  (forall rt weekdays,
      find (fun r => RegularTask.task_id r =? task_id) (regular_tasks (current s)) = Some rt ->
      exists msg,
        update_regular_task task_id (Some name) weekdays s
        = (Raise (AttributeError msg), answered EvQuery (answered EvQuery s))) /\
  (forall it optimal_deadline hard_deadline,
      find (fun r => IrregularTask.task_id r =? task_id) (irregular_tasks (current s))
        = Some it ->
      exists msg,
        update_irregular_task task_id (Some name) optimal_deadline hard_deadline s
        = (Raise (AttributeError msg), answered EvQuery (answered EvQuery s))).
Proof.
  intros H Hname Ht.
  assert (E : String.eqb name "" = false) by now apply String.eqb_neq.
  split.
  - intros rt w Hr. eexists. unfold update_regular_task, try_except.
    erewrite bind_Return; [|apply query_first_answers; auto with session].
    cbn [current answered]. rewrite Hr.
    unfold if_str at 1, truthy_str. rewrite E. cbn [negb].
    unfold bind at 1. unfold bind at 1.
    rewrite query_first_answers by auto with session.
    cbn [current answered]. rewrite Ht. reflexivity.
  - intros it od hd Hr. eexists. unfold update_irregular_task, try_except.
    erewrite bind_Return; [|apply query_first_answers; auto with session].
    cbn [current answered]. rewrite Hr.
    unfold if_str at 1, truthy_str. rewrite E. cbn [negb].
    unfold bind at 1. unfold bind at 1.
    rewrite query_first_answers by auto with session.
    cbn [current answered]. rewrite Ht. reflexivity.
Qed.

Lemma rename_without_base_task_raises_AttributeError_witness :
  healthy (new_session (mkStore [] [] [] [RegularTask.mk 1 7 "1,2"] []) []) /\
  "Workout" <> "" /\
  exists msg,
    update_regular_task 7 (Some "Workout") (Some "3")
      (new_session (mkStore [] [] [] [RegularTask.mk 1 7 "1,2"] []) [])
    = (Raise (AttributeError msg),
       answered EvQuery
         (answered EvQuery (new_session (mkStore [] [] [] [RegularTask.mk 1 7 "1,2"] []) []))).
Proof.
  split; [reflexivity|]. split; [discriminate|].
  destruct (rename_without_base_task_raises_AttributeError 7 "Workout"
              (new_session (mkStore [] [] [] [RegularTask.mk 1 7 "1,2"] []) []))
    as [Hreg _]; [reflexivity|discriminate|reflexivity|].
  apply (Hreg (RegularTask.mk 1 7 "1,2")). reflexivity.
Defined.

(* ================================================================== *)
(** ** What no operation changes *)







(* ================================================================== *)
(** ** Partial updates, then reading the details *)





(* ================================================================== *)
(** ** Commits per call *)

(** X17.  What a mutating operation has committed when it comes back,
    under every behaviour of the engine:
    - if it returns, everything it staged is committed, in one commit, or
      in two for a composed create;
    - if it raises, it has committed nothing and the durable store is as
      before, except for a create that raises after its first INSERT was
      committed (on the read of the new id, or on the second commit of a
      composed create): then exactly that one commit stands. *)
Theorem commits_of_a_call
    (o : op) (s s' : Session) (r : outcome retval) (evs : list event) :
  exec o s = (r, s') ->
  log s' = (evs ++ log s)%list ->
  match r with
  | Return _ =>
      committed s' = current s' /\
      (base_insert o = None /\ commits evs = 1%nat \/
       base_insert o <> None /\ commits evs = 2%nat)
  | Raise _ =>
      commits evs = 0%nat /\ committed s' = committed s \/
      exists ins,
        first_insert o = Some ins /\ commits evs = 1%nat /\ committed s' = ins (current s)
  end.
Proof.
  intros Hrun Hlog. destruct s as [cm cu fs lg].
  destruct o as [name|u i ty|u name reg|u name w|u name od hd|u name|t p
                |t [name|] [w|]|t [name|] [od|] [hd|]|u|t].
  all: run_cases Hrun.
  all: inversion Hrun; subst r s'; clear Hrun.
  all: cbn [log] in Hlog; new_events Hlog; subst evs.
  all: cbn [committed current base_insert first_insert].
  all: try (split; [reflexivity|left; split; reflexivity]).
  all: try (split; [reflexivity|right; split; [discriminate|reflexivity]]).
  all: try (left; split; reflexivity).
  all: right; eexists; split; [reflexivity|split; reflexivity].
Qed.

Lemma commits_of_a_call_witness :
  exec (CreateIrregularTask 1 "Report" (mkDate 2025 5 10) (mkDate 2025 5 15))
    (new_session (current demo_session) [None; Some "disk full"])
    = (Raise (Exception (err_create_task ++ "disk full")),
       session_after
         (exec (CreateIrregularTask 1 "Report" (mkDate 2025 5 10) (mkDate 2025 5 15)))
         (new_session (current demo_session) [None; Some "disk full"])) /\
  log (session_after
         (exec (CreateIrregularTask 1 "Report" (mkDate 2025 5 10) (mkDate 2025 5 15)))
         (new_session (current demo_session) [None; Some "disk full"]))
    = [EvRollback; EvFault "disk full"; EvCommit] /\
  In (Task.mk 2 1 "Report" 0 false)
    (tasks (committed
              (session_after
                 (exec (CreateIrregularTask 1 "Report" (mkDate 2025 5 10) (mkDate 2025 5 15)))
                 (new_session (current demo_session) [None; Some "disk full"])))).
Proof.
  split; [vm_compute; reflexivity|]. split; [vm_compute; reflexivity|].
  destruct (commits_of_a_call
              (CreateIrregularTask 1 "Report" (mkDate 2025 5 10) (mkDate 2025 5 15))
              (new_session (current demo_session) [None; Some "disk full"])
              (session_after
                 (exec (CreateIrregularTask 1 "Report" (mkDate 2025 5 10) (mkDate 2025 5 15)))
                 (new_session (current demo_session) [None; Some "disk full"]))
              (Raise (Exception (err_create_task ++ "disk full")))
              [EvRollback; EvFault "disk full"; EvCommit])
    as [[Hzero _]|(ins & Hins & _ & Hcm)].
  - vm_compute; reflexivity.
  - vm_compute; reflexivity.
  - exfalso. revert Hzero. vm_compute. discriminate.
  - injection Hins as <-. rewrite Hcm. vm_compute. right. left. reflexivity.
Defined.

(* ================================================================== *)
(** ** config.py: the connection string *)

Lemma string_append_assoc (a b c : string) : ((a ++ b) ++ c = a ++ (b ++ c))%string.
Proof. induction a as [|ch a IH]; cbn [append]; [reflexivity|]. now rewrite IH. Qed.

(** X18.  The connection string takes the five settings as they are,
    without escaping: a colon moved from the end of the user name to the
    start of the password, or the other way round, gives the same
    [DB_URL], so the string does not determine the credentials it was
    built from. *)
Theorem DB_URL_does_not_delimit_credentials (env1 env2 : environ) (u x p : string) :
  env1 "DB_USER" = Some (u ++ ":" ++ x)%string ->
  env1 "DB_PASSWORD" = Some p ->
  env2 "DB_USER" = Some u ->
  env2 "DB_PASSWORD" = Some (x ++ ":" ++ p)%string ->
  env1 "DB_HOST" = env2 "DB_HOST" ->
  env1 "DB_PORT" = env2 "DB_PORT" ->
  env1 "DB_NAME" = env2 "DB_NAME" ->
  DB_URL env1 = DB_URL env2.
Proof.
  intros Hu1 Hp1 Hu2 Hp2 Hh Hport Hn.
  unfold DB_URL, DB_USER, DB_PASSWORD, DB_HOST, DB_PORT, DB_NAME, environ_get.
  rewrite Hu1, Hp1, Hu2, Hp2, Hh, Hport, Hn.
  f_equal. rewrite !string_append_assoc. reflexivity.
Qed.

Lemma DB_URL_does_not_delimit_credentials_witness :
  DB_URL (environ_of [("DB_USER", "admin:s3"); ("DB_PASSWORD", "cret")])
  = DB_URL (environ_of [("DB_USER", "admin"); ("DB_PASSWORD", "s3:cret")]).
Proof.
  apply (DB_URL_does_not_delimit_credentials
           (environ_of [("DB_USER", "admin:s3"); ("DB_PASSWORD", "cret")])
           (environ_of [("DB_USER", "admin"); ("DB_PASSWORD", "s3:cret")])
           "admin" "s3" "cret"); reflexivity.
Defined.
